(** * Chatbase conversation formatter: model and verified properties

    A shallow embedding of [public/test-chatbase-convo-formatted.py]:
    the timestamp formatter, the per-conversation renderer and the
    [main] routine with its error handlers.

    Modelling conventions.
    - A value decoded by [response.json()] is a [json] tree.  A Python
      [dict] is an association list in insertion order; a decoded
      object has each key once, and lookup takes the first binding.
    - A Python [str] is a Rocq [string], one character per code point.
      The model covers ASCII text, where [lower], [upper], [repr] and the
      JSON escapes below are Python's.  The one non-ASCII literal of the
      source, the check mark of the confirmation line, is kept as its
      UTF-8 bytes; it is only ever printed.
    - A finite [float] is carried by the text [float.__repr__] gives for
      it; no arithmetic is done on floats by the program.
    - An exception is a value of [exn]; code that may raise returns a
      [result].
    - Console and file writes are events of a trace.  They are taken to
      succeed: the failures considered are those of the request, of the
      JSON decoding and of the formatting code. *)

From Stdlib Require Import String Ascii List ZArith NArith Bool Lia DecimalString.
Import ListNotations.
Local Open Scope list_scope.
Local Open Scope string_scope.
Set Warnings "-register-all".

(** ** Python strings *)

Module PyStr.

(** The newline character, written [\n] in the source. *)
Definition nl : string := String "010" EmptyString.

(** The double quote. *)
Definition dquote_char : ascii := "034"%char.
Definition dquote : string := String dquote_char EmptyString.

(** [sep.join(parts)] *)
Definition join (sep : string) (parts : list string) : string :=
  String.concat sep parts.

(** [s * n] *)
Fixpoint times (s : string) (n : nat) : string :=
  match n with
  | O => ""
  | S n' => s ++ times s n'
  end.

Definition is_upper (c : ascii) : bool :=
  let n := nat_of_ascii c in (65 <=? n)%nat && (n <=? 90)%nat.

Definition is_lower (c : ascii) : bool :=
  let n := nat_of_ascii c in (97 <=? n)%nat && (n <=? 122)%nat.

Definition lower_char (c : ascii) : ascii :=
  if is_upper c then ascii_of_nat (nat_of_ascii c + 32) else c.

Definition upper_char (c : ascii) : ascii :=
  if is_lower c then ascii_of_nat (nat_of_ascii c - 32) else c.

Fixpoint map_chars (f : ascii -> ascii) (s : string) : string :=
  match s with
  | EmptyString => EmptyString
  | String c s' => String (f c) (map_chars f s')
  end.

(** [s.lower()] and [s.upper()] *)
Definition lower : string -> string := map_chars lower_char.
Definition upper : string -> string := map_chars upper_char.

(** [s.replace(c, by)] for a one-character pattern [c]. *)
Fixpoint replace_char (c : ascii) (by_ : string) (s : string) : string :=
  match s with
  | EmptyString => EmptyString
  | String a s' =>
      if Ascii.eqb a c then by_ ++ replace_char c by_ s'
      else String a (replace_char c by_ s')
  end.

(** [sub in s] *)
Fixpoint contains (sub s : string) : bool :=
  String.prefix sub s ||
  match s with
  | EmptyString => false
  | String _ s' => contains sub s'
  end.



(** [str(n)] for an [int]. *)
Definition of_Z (z : Z) : string := NilZero.string_of_int (Z.to_int z).
Definition of_nat (n : nat) : string := NilZero.string_of_uint (Nat.to_uint n).

Definition hex_digit (n : nat) : ascii :=
  if (n <? 10)%nat then ascii_of_nat (48 + n) else ascii_of_nat (87 + n).

(** Two lower-case hexadecimal digits of a character code. *)
Definition hex2 (c : ascii) : string :=
  let n := nat_of_ascii c in
  String (hex_digit (n / 16)) (String (hex_digit (n mod 16)) "").

Fixpoint has_char (c : ascii) (s : string) : bool :=
  match s with
  | EmptyString => false
  | String a s' => Ascii.eqb a c || has_char c s'
  end.

Definition repr_char (quote : ascii) (c : ascii) : string :=
  let n := nat_of_ascii c in
  if Ascii.eqb c quote || Ascii.eqb c "\" then String "\" (String c "")
  else if (n =? 9)%nat then "\t"
  else if (n =? 10)%nat then "\n"
  else if (n =? 13)%nat then "\r"
  else if (n <? 32)%nat || (n =? 127)%nat then "\x" ++ hex2 c
  else String c "".

Fixpoint repr_body (quote : ascii) (s : string) : string :=
  match s with
  | EmptyString => EmptyString
  | String c s' => repr_char quote c ++ repr_body quote s'
  end.

(** [repr(s)] for a [str]: single quotes, unless the text has a single
    quote and no double quote. *)
Definition repr (s : string) : string :=
  let quote : ascii :=
    if has_char "'" s && negb (has_char dquote_char s) then dquote_char else "'"%char in
  String quote (repr_body quote s) ++ String quote "".

End PyStr.

Import PyStr.

(** ** Decoded JSON values *)

Inductive pyfloat : Type :=
| FNan
| FInf
| FNegInf
| FFinite (text : string).

Inductive json : Type :=
| JNull
| JBool (b : bool)
| JInt (z : Z)
| JFloat (f : pyfloat)
| JStr (s : string)
| JArr (items : list json)
| JObj (fields : list (string * json)).

Module Py.

(** [float.__repr__] *)
Definition float_repr (f : pyfloat) : string :=
  match f with
  | FNan => "nan"
  | FInf => "inf"
  | FNegInf => "-inf"
  | FFinite t => t
  end.

Definition float_is_zero (f : pyfloat) : bool :=
  match f with
  | FFinite t => String.eqb t "0.0" || String.eqb t "-0.0"
  | _ => false
  end.

(** [bool(v)]: the truth value tested by [if v:] and [not v]. *)
Definition truthy (v : json) : bool :=
  match v with
  | JNull => false
  | JBool b => b
  | JInt z => negb (z =? 0)%Z
  | JFloat f => negb (float_is_zero f)
  | JStr s => negb (String.eqb s "")
  | JArr l => match l with [] => false | _ => true end
  | JObj d => match d with [] => false | _ => true end
  end.

(** [type(v).__name__] *)
Definition type_name (v : json) : string :=
  match v with
  | JNull => "NoneType"
  | JBool _ => "bool"
  | JInt _ => "int"
  | JFloat _ => "float"
  | JStr _ => "str"
  | JArr _ => "list"
  | JObj _ => "dict"
  end.

(** [repr(v)] *)
Fixpoint repr (v : json) : string :=
  match v with
  | JNull => "None"
  | JBool true => "True"
  | JBool false => "False"
  | JInt z => of_Z z
  | JFloat f => float_repr f
  | JStr s => PyStr.repr s
  | JArr l => "[" ++ join ", " (map repr l) ++ "]"
  | JObj d =>
      "{" ++ join ", " (map (fun kv : string * json =>
                         let '(k, x) := kv in PyStr.repr k ++ ": " ++ repr x) d) ++ "}"
  end.

(** [str(v)], which is what an f-string field [{v}] renders. *)
Definition str (v : json) : string :=
  match v with
  | JStr s => s
  | _ => repr v
  end.

(** [key in d] and [d.get(key)] on the fields of a dict. *)
Fixpoint lookup (key : string) (d : list (string * json)) : option json :=
  match d with
  | [] => None
  | (k, v) :: d' => if String.eqb k key then Some v else lookup key d'
  end.

Definition has_key (key : string) (d : list (string * json)) : bool :=
  match lookup key d with Some _ => true | None => false end.

(** [d.get(key, default)] *)
Definition get (key : string) (default : json) (d : list (string * json)) : json :=
  match lookup key d with Some v => v | None => default end.

End Py.

(** ** [json.dumps(v, indent=2)] *)

Module Json.

Definition hex4 (c : ascii) : string := "00" ++ hex2 c.

(** One character of a string under [ensure_ascii]. *)
Definition escape_char (c : ascii) : string :=
  let n := nat_of_ascii c in
  if Ascii.eqb c dquote_char then "\" ++ dquote
  else if Ascii.eqb c "\" then "\\"
  else if (n =? 8)%nat then "\b"
  else if (n =? 9)%nat then "\t"
  else if (n =? 10)%nat then "\n"
  else if (n =? 12)%nat then "\f"
  else if (n =? 13)%nat then "\r"
  else if (n <? 32)%nat || (126 <? n)%nat then "\u" ++ hex4 c
  else String c "".

Fixpoint escape (s : string) : string :=
  match s with
  | EmptyString => EmptyString
  | String c s' => escape_char c ++ escape s'
  end.

Definition quote (s : string) : string := dquote ++ escape s ++ dquote.

Definition float_text (f : pyfloat) : string :=
  match f with
  | FNan => "NaN"
  | FInf => "Infinity"
  | FNegInf => "-Infinity"
  | FFinite t => t
  end.

Definition newline_indent (level : nat) : string := nl ++ times "  " level.

Fixpoint dumps_at (level : nat) (v : json) : string :=
  match v with
  | JNull => "null"
  | JBool true => "true"
  | JBool false => "false"
  | JInt z => of_Z z
  | JFloat f => float_text f
  | JStr s => quote s
  | JArr [] => "[]"
  | JArr l =>
      "[" ++ newline_indent (S level)
          ++ join ("," ++ newline_indent (S level)) (map (dumps_at (S level)) l)
          ++ newline_indent level ++ "]"
  | JObj [] => "{}"
  | JObj d =>
      "{" ++ newline_indent (S level)
          ++ join ("," ++ newline_indent (S level))
               (map (fun kv : string * json =>
                       let '(k, x) := kv in quote k ++ ": " ++ dumps_at (S level) x) d)
          ++ newline_indent level ++ "}"
  end.

Definition dumps (v : json) : string := dumps_at 0 v.

End Json.

(** ** Exceptions *)

(** The exception classes the handlers of [main] tell apart.  [str(e)]
    is the message. *)
Inductive exn : Type :=
| RequestException (msg : string) (response_text : option string)
    (** [requests.exceptions.RequestException] and its subclasses; the
        second field is [e.response.text] when [e.response] is set. *)
| JSONDecodeError (msg : string)
    (** [json.JSONDecodeError] raised outside of [requests]' hierarchy. *)
| OtherError (cls : string) (msg : string).
    (** Any other [Exception]: [AttributeError], [TypeError], [ValueError]. *)

Definition exn_str (e : exn) : string :=
  match e with
  | RequestException m _ => m
  | JSONDecodeError m => m
  | OtherError _ m => m
  end.

Inductive result (A : Type) : Type :=
| Ok (a : A)
| Raise (e : exn).

Arguments Ok {A} a.
Arguments Raise {A} e.

Definition bind {A B : Type} (r : result A) (k : A -> result B) : result B :=
  match r with
  | Ok a => k a
  | Raise e => Raise e
  end.

Notation "x <- r ;; k" := (bind r (fun x => k))
  (at level 61, r at next level, right associativity).

(** [obj.name] fails on an object without that attribute. *)
Definition no_attribute {A : Type} (v : json) (name : string) : result A :=
  Raise (OtherError "AttributeError"
           ("'" ++ Py.type_name v ++ "' object has no attribute '" ++ name ++ "'")).

(** ** [datetime.fromisoformat] and [strftime] *)

(** The parser follows the grammar documented for [datetime.fromisoformat],
    [YYYY-MM-DD[*HH[:MM[:SS[.fff[fff]]]][+HH:MM[:SS[.ffffff]]]]], with the
    range checks of the [datetime] and [timezone] constructors. *)
Module Datetime.

Record datetime : Type := mk_datetime {
  year : N; month : N; day : N;
  hour : N; minute : N; second : N; microsecond : N;
  tzinfo : option Z  (** UTC offset in microseconds *)
}.

Definition digit_of (c : ascii) : option N :=
  let n := N_of_ascii c in
  if (48 <=? n)%N && (n <=? 57)%N then Some (n - 48)%N else None.

(** Reads exactly [n] decimal digits. *)
Fixpoint parse_digits (n : nat) (acc : N) (s : string) : option (N * string) :=
  match n with
  | O => Some (acc, s)
  | S n' =>
      match s with
      | EmptyString => None
      | String c s' =>
          match digit_of c with
          | Some d => parse_digits n' (acc * 10 + d)%N s'
          | None => None
          end
      end
  end.

Definition is_leap (y : N) : bool :=
  ((y mod 4 =? 0) && (negb (y mod 100 =? 0) || (y mod 400 =? 0)))%N.

Definition days_in_month (y m : N) : N :=
  match m with
  | 2 => if is_leap y then 29 else 28
  | 4 | 6 | 9 | 11 => 30
  | _ => 31
  end%N.

Definition check_date_fields (y m d : N) : bool :=
  ((1 <=? y) && (y <=? 9999) && (1 <=? m) && (m <=? 12)
   && (1 <=? d) && (d <=? days_in_month y m))%N.

Definition check_time_fields (h mi s : N) : bool :=
  ((h <=? 23) && (mi <=? 59) && (s <=? 59))%N.

(** [YYYY-MM-DD] at the head of the text. *)
Definition parse_isoformat_date (s : string) : option (N * N * N * string) :=
  match parse_digits 4 0 s with
  | Some (y, String "-" s1) =>
      match parse_digits 2 0 s1 with
      | Some (m, String "-" s2) =>
          match parse_digits 2 0 s2 with
          | Some (d, rest) => Some (y, m, d, rest)
          | None => None
          end
      | _ => None
      end
  | _ => None
  end.

(** [.fff] or [.ffffff] after the seconds, in microseconds. *)
Definition parse_fraction (s : string) : option N :=
  match String.length s with
  | 3%nat =>
      match parse_digits 3 0 s with
      | Some (f, _) => Some (f * 1000)%N
      | None => None
      end
  | 6%nat =>
      match parse_digits 6 0 s with
      | Some (f, _) => Some f
      | None => None
      end
  | _ => None
  end.

(** [HH[:MM[:SS[.fff[fff]]]]], the whole of the text. *)
Definition parse_hh_mm_ss_ff (s : string) : option (N * N * N * N) :=
  match parse_digits 2 0 s with
  | Some (h, EmptyString) => Some (h, 0, 0, 0)%N
  | Some (h, String ":" s1) =>
      match parse_digits 2 0 s1 with
      | Some (mi, EmptyString) => Some (h, mi, 0, 0)%N
      | Some (mi, String ":" s2) =>
          match parse_digits 2 0 s2 with
          | Some (sec, EmptyString) => Some (h, mi, sec, 0)%N
          | Some (sec, String "." f) =>
              match parse_fraction f with
              | Some us => Some (h, mi, sec, us)
              | None => None
              end
          | _ => None
          end
      | _ => None
      end
  | _ => None
  end.

(** Splits the time text at its first [+] or [-]: the clock part, and
    the sign ([true] for [-]) with the offset text. *)
Fixpoint split_at_sign (s : string) : string * option (bool * string) :=
  match s with
  | EmptyString => (EmptyString, None)
  | String c s' =>
      if Ascii.eqb c "+" then (EmptyString, Some (false, s'))
      else if Ascii.eqb c "-" then (EmptyString, Some (true, s'))
      else let '(t, z) := split_at_sign s' in (String c t, z)
  end.

Definition day_us : Z := 86400 * 1000000.

(** The offset text [HH:MM], [HH:MM:SS] or [HH:MM:SS.ffffff]; a
    [timezone] offset lies strictly between -24 and 24 hours. *)
Definition parse_tz (negative : bool) (s : string) : option Z :=
  match String.length s with
  | 5%nat | 8%nat | 15%nat =>
      match parse_hh_mm_ss_ff s with
      | Some (h, mi, sec, us) =>
          let off := (Z.of_N (h * 3600 + mi * 60 + sec) * 1000000 + Z.of_N us)%Z in
          if (off <? day_us)%Z
          then Some (if negative then (- off)%Z else off)
          else None
      | None => None
      end
  | _ => None
  end.

Definition parse_isoformat_time (s : string)
  : option (N * N * N * N * option Z) :=
  let '(clock, zone) := split_at_sign s in
  match parse_hh_mm_ss_ff clock with
  | Some (h, mi, sec, us) =>
      match zone with
      | None => Some (h, mi, sec, us, None)
      | Some (negative, z) =>
          match parse_tz negative z with
          | Some off => Some (h, mi, sec, us, Some off)
          | None => None
          end
      end
  | None => None
  end.

(** [datetime.fromisoformat(s)]; [None] stands for the [ValueError]. *)
Definition fromisoformat (s : string) : option datetime :=
  match parse_isoformat_date s with
  | Some (y, m, d, rest) =>
      if check_date_fields y m d then
        match rest with
        | EmptyString => Some (mk_datetime y m d 0 0 0 0 None)
        | String _ t =>
            match parse_isoformat_time t with
            | Some (h, mi, sec, us, tz) =>
                if check_time_fields h mi sec
                then Some (mk_datetime y m d h mi sec us tz)
                else None
            | None => None
            end
        end
      else None
  | None => None
  end.

Definition digit_char (d : N) : ascii := ascii_of_N (48 + d).

(** The [k] low decimal digits of [n], most significant first: [n]
    zero padded to width [k], for [n] below [10 ^ k]. *)
Fixpoint pad (k : nat) (n : N) : string :=
  match k with
  | O => EmptyString
  | S k' => String (digit_char ((n / 10 ^ N.of_nat k') mod 10)) (pad k' n)
  end.

(** [dt.strftime('%Y-%m-%d %H:%M:%S UTC')]: the fields as stored, with
    the literal suffix; no conversion to UTC takes place.  [%Y] is the
    year in four digits, which every C library gives from year 1000 on. *)
Definition strftime (dt : datetime) : string :=
  pad 4 (year dt) ++ "-" ++ pad 2 (month dt) ++ "-" ++ pad 2 (day dt) ++ " "
    ++ pad 2 (hour dt) ++ ":" ++ pad 2 (minute dt) ++ ":" ++ pad 2 (second dt)
    ++ " UTC".

End Datetime.

(** ** The formatter *)

(** The body of the [try] block of [format_timestamp]. *)
Definition format_timestamp_try (timestamp : json) : result json :=
  match timestamp with
  | JStr s =>
      match Datetime.fromisoformat (replace_char "Z" "+00:00" s) with
      | Some dt => Ok (JStr (Datetime.strftime dt))
      | None =>
          Raise (OtherError "ValueError"
                   ("Invalid isoformat string: "
                      ++ PyStr.repr (replace_char "Z" "+00:00" s)))
      end
  | _ => no_attribute timestamp "replace"
  end.

(** [format_timestamp]: the bare [except:] returns the argument. *)
Definition format_timestamp (timestamp : json) : json :=
  match format_timestamp_try timestamp with
  | Ok r => r
  | Raise _ => timestamp
  end.

(** Lists of lines are appended with [+++]; [++] joins strings. *)
Notation "l1 +++ l2" := (@app string l1 l2) (at level 60, right associativity).

(** Iteration over a value, as [for x in v] and [enumerate(v, 1)] do it:
    a list gives its items, a [str] its characters, a [dict] its keys. *)
Definition iterate (v : json) : result (list json) :=
  match v with
  | JArr l => Ok l
  | JStr s => Ok (map (fun c => JStr (String c "")) (list_ascii_of_string s))
  | JObj d => Ok (map (fun kv : string * json => JStr (fst kv)) d)
  | _ => Raise (OtherError "TypeError"
                  ("'" ++ Py.type_name v ++ "' object is not iterable"))
  end.

(** [len(v)] *)
Definition len (v : json) : result nat :=
  match v with
  | JArr l => Ok (List.length l)
  | JStr s => Ok (String.length s)
  | JObj d => Ok (List.length d)
  | _ => Raise (OtherError "TypeError"
                  ("object of type '" ++ Py.type_name v ++ "' has no len()"))
  end.

Definition rule (c : string) : string := times c 80.

Fixpoint in_list (s : string) (l : list string) : bool :=
  match l with
  | [] => false
  | x :: l' => String.eqb s x || in_list s l'
  end.

(** Lines 52: [message.get('role', message.get('sender', 'unknown')).lower()] *)
Definition message_role (m : list (string * json)) : result string :=
  match Py.get "role" (Py.get "sender" (JStr "unknown") m) m with
  | JStr s => Ok (lower s)
  | v => no_attribute v "lower"
  end.

(** Lines 54-59 *)
Definition speaker_of_role (role : string) : string :=
  if in_list role ["user"; "human"] then "USER"
  else if in_list role ["assistant"; "bot"; "ai"; "agent"] then "BOT"
  else upper role.

(** Line 62 *)
Definition message_content (m : list (string * json)) : json :=
  Py.get "content" (Py.get "message" (Py.get "text" (JStr "") m) m) m.

(** Lines 65-69 *)
Definition message_timestamp (m : list (string * json)) : string :=
  match Py.lookup "createdAt" m with
  | Some t => " [" ++ Py.str (format_timestamp t) ++ "]"
  | None =>
      match Py.lookup "timestamp" m with
      | Some t => " [" ++ Py.str (format_timestamp t) ++ "]"
      | None => ""
      end
  end.

(** One pass of the loop body, lines 51-77: the lines it appends. *)
Definition format_message (message : json) : result (list string) :=
  match message with
  | JObj m =>
      role <- message_role m ;;
      let speaker := speaker_of_role role in
      let content := message_content m in
      let timestamp := message_timestamp m in
      Ok ([nl ++ "[" ++ speaker ++ "]" ++ timestamp; Py.str content]
            +++ match Py.lookup "feedback" m with
                | Some f => ["  Feedback: " ++ Py.str f]
                | None => []
                end)
  | _ => no_attribute message "get"
  end.

Fixpoint format_messages (messages : list json) : result (list string) :=
  match messages with
  | [] => Ok []
  | m :: rest =>
      a <- format_message m ;;
      b <- format_messages rest ;;
      Ok (a +++ b)
  end.

Definition optional_line (label key : string) (f : json -> json)
                         (c : list (string * json)) : list string :=
  match Py.lookup key c with
  | Some v => [label ++ Py.str (f v)]
  | None => []
  end.

(** Lines 20-39 *)
Definition conversation_header (c : list (string * json)) : list string :=
  [rule "=";
   "CONVERSATION ID: " ++ Py.str (Py.get "id" (JStr "N/A") c);
   "Session ID: " ++ Py.str (Py.get "sessionId" (JStr "N/A") c)]
  +++ optional_line "Started: " "createdAt" format_timestamp c
  +++ optional_line "Last Updated: " "updatedAt" format_timestamp c
  +++ optional_line "Source: " "source" (fun v => v) c
  +++ optional_line "User ID: " "userId" (fun v => v) c
  +++ [rule "="; ""].

(** Lines 42-44 *)
Definition resolve_messages (c : list (string * json)) : json :=
  let messages := Py.get "messages" (JArr []) c in
  if negb (Py.truthy messages) then Py.get "transcript" (JArr []) c
  else messages.

(** The list [lines] of [format_conversation] when it reaches line 86. *)
Definition conversation_lines (conversation : json) : result (list string) :=
  match conversation with
  | JObj c =>
      let messages := resolve_messages c in
      if Py.truthy messages then
        items <- iterate messages ;;
        body <- format_messages items ;;
        Ok (conversation_header c +++ ["TRANSCRIPT:"; rule "-"] +++ body
              +++ [rule "-"] +++ [""; ""])
      else
        Ok (conversation_header c +++ ["No transcript available."] +++ [""; ""])
  | _ => no_attribute conversation "get"
  end.

Definition format_conversation (conversation : json) : result string :=
  lines <- conversation_lines conversation ;;
  Ok (join nl lines).

(** ** [main] *)

(** Lines 116-126 *)
Definition normalize (data : json) : json :=
  match data with
  | JObj d =>
      match Py.lookup "conversations" d with
      | Some v => v
      | None =>
          match Py.lookup "data" d with
          | Some v => v
          | None => JArr [data]
          end
      end
  | JArr _ => data
  | _ => JArr []
  end.

(** What the run does to the outside. [Print] is one call of [print],
    which ends its text with a newline; [PrintTraceback] is
    [traceback.print_exc()], on standard error. *)
Inductive event : Type :=
| Print (text : string)
| PrintTraceback (e : exn)
| WriteFile (path : string) (text : string).

(** What the network gives to lines 110-113. *)
Inductive fetched : Type :=
| RequestFailed (e : exn)
    (** [requests.get] or [raise_for_status] raised [e] *)
| DecodeFailed (text : string) (e : exn)
    (** the response has body [text] and [response.json()] raised [e] *)
| Decoded (text : string) (data : json).
    (** [response.json()] returned [data] *)

Record outcome : Type := mk_outcome {
  events : list event;
  exit_code : Z
}.

Definition found_header (n : nat) : string :=
  nl ++ rule "=" ++ nl ++ "FOUND " ++ of_nat n ++ " CONVERSATION(S)" ++ nl
     ++ rule "=" ++ nl.

Definition conv_header (idx n : nat) : string :=
  nl ++ rule "#" ++ nl ++ "CONVERSATION #" ++ of_nat idx ++ " of " ++ of_nat n ++ nl
     ++ rule "#" ++ nl.

(** Lines 133-136: what the loop appends to [output_lines], from index
    [idx] on. *)
Fixpoint format_all (n idx : nat) (conversations : list json) : result (list string) :=
  match conversations with
  | [] => Ok []
  | c :: rest =>
      text <- format_conversation c ;;
      more <- format_all n (S idx) rest ;;
      Ok (conv_header idx n :: text :: more)
  end.

(** Lines 129-140: the list [output_lines]. *)
Definition output_lines (data : json) : result (list string) :=
  let conversations := normalize data in
  if Py.truthy conversations then
    n <- len conversations ;;
    items <- iterate conversations ;;
    blocks <- format_all n 1 items ;;
    Ok (found_header n :: blocks)
  else
    Ok [nl ++ "No conversations found for the specified date range.";
        nl ++ "Raw API Response:";
        Json.dumps data].

Definition confirmation (output_file : string) : string :=
  nl ++ "✓ Formatted transcripts saved to: " ++ output_file.

(** Lines 143-150; [if output_file:] is false for [None] and for [""]. *)
Definition emit (output_file : option string) (output_text : string) : list event :=
  match output_file with
  | Some f =>
      if String.eqb f "" then [Print output_text]
      else [WriteFile f output_text; Print (confirmation f)]
  | None => [Print output_text]
  end.

(** Lines 110-113 *)
Definition fetch_data (w : fetched) : result json :=
  match w with
  | RequestFailed e => Raise e
  | DecodeFailed _ e => Raise e
  | Decoded _ data => Ok data
  end.

(** The [try] block, lines 110-150. *)
Definition try_block (output_file : option string) (w : fetched) : result (list event) :=
  data <- fetch_data w ;;
  lines <- output_lines data ;;
  Ok (emit output_file (join nl lines)).

(** [response.text] when the name [response] is bound. *)
Definition response_text (w : fetched) : option string :=
  match w with
  | RequestFailed _ => None
  | DecodeFailed t _ => Some t
  | Decoded t _ => Some t
  end.

(** The [except] clauses, lines 152-167; each ends in [sys.exit(1)]. *)
Definition handler (w : fetched) (e : exn) : list event :=
  match e with
  | RequestException _ resp =>
      [Print ("Error fetching conversations: " ++ exn_str e
                ++ match resp with
                   | Some t => nl ++ "Response: " ++ t
                   | None => ""
                   end)]
  | JSONDecodeError _ =>
      (Print ("Error parsing JSON response: " ++ exn_str e)
         :: match response_text w with
            | Some t => [Print ("Raw response: " ++ t)]
            | None => []
            end)
  | OtherError _ _ =>
      [Print ("Unexpected error: " ++ exn_str e); PrintTraceback e]
  end.

Definition main (output_file : option string) (w : fetched) : outcome :=
  match try_block output_file w with
  | Ok evs => mk_outcome evs 0
  | Raise e => mk_outcome (handler w e) 1
  end.

(** Lines 169-172 *)
Definition script (argv : list string) (w : fetched) : outcome :=
  main (match argv with
        | _ :: f :: _ => Some f
        | _ => None
        end) w.

(** ** Reference definitions, in the words of the specification *)

Module Spec.

(** "role key takes priority over sender key; absent: unknown" *)
Definition role_or_sender (m : list (string * json)) : json :=
  match Py.lookup "role" m with
  | Some v => v
  | None =>
      match Py.lookup "sender" m with
      | Some v => v
      | None => JStr "unknown"
      end
  end.


(** A body that is neither a mapping nor a sequence. *)
Definition scalar (data : json) : bool :=
  match data with
  | JObj _ | JArr _ => false
  | _ => true
  end.

(** The "no conversations found" notice and the dump of the body. *)
Definition no_conversations (data : json) : list string :=
  [nl ++ "No conversations found for the specified date range.";
   nl ++ "Raw API Response:";
   Json.dumps data].


(** ISO-8601 calendar date and time of day in the extended format,
    [YYYY-MM-DDTHH:MM:SS], with an optional fraction of a second of
    three or six digits and an optional zone designator: [Z], or an
    offset [+HH:MM] or [-HH:MM]. *)
Inductive fraction : Type :=
| NoFraction
| Millis (n : N)
| Micros (n : N).

Inductive zone : Type :=
| NoZone
| Zulu
| Offset (negative : bool) (hh mm : N).

Record iso_timestamp : Type := mk_iso {
  ts_year : N; ts_month : N; ts_day : N;
  ts_hour : N; ts_minute : N; ts_second : N;
  ts_fraction : fraction;
  ts_zone : zone
}.

Definition fraction_text (f : fraction) : string :=
  match f with
  | NoFraction => ""
  | Millis n => "." ++ Datetime.pad 3 n
  | Micros n => "." ++ Datetime.pad 6 n
  end.

Definition zone_text (z : zone) : string :=
  match z with
  | NoZone => ""
  | Zulu => "Z"
  | Offset negative hh mm =>
      (if negative then "-" else "+") ++ Datetime.pad 2 hh ++ ":" ++ Datetime.pad 2 mm
  end.

Definition clock_text (ts : iso_timestamp) : string :=
  Datetime.pad 2 (ts_hour ts) ++ ":" ++ Datetime.pad 2 (ts_minute ts) ++ ":"
    ++ Datetime.pad 2 (ts_second ts) ++ fraction_text (ts_fraction ts).

Definition iso_text (ts : iso_timestamp) : string :=
  Datetime.pad 4 (ts_year ts) ++ "-" ++ Datetime.pad 2 (ts_month ts) ++ "-"
    ++ Datetime.pad 2 (ts_day ts) ++ "T" ++ (clock_text ts ++ zone_text (ts_zone ts)).

Definition valid_fraction (f : fraction) : bool :=
  match f with
  | NoFraction => true
  | Millis n => (n <? 1000)%N
  | Micros n => (n <? 1000000)%N
  end.

Definition valid_zone (z : zone) : bool :=
  match z with
  | Offset _ hh mm => (hh <? 24)%N && (mm <? 60)%N
  | _ => true
  end.

(** A date of the Gregorian calendar in the years 1583 to 9999, the
    range ISO 8601 gives to four-digit years without further agreement,
    and a time of day with hour below 24, minute and second below 60. *)
Definition valid (ts : iso_timestamp) : bool :=
  (1583 <=? ts_year ts)%N
  && Datetime.check_date_fields (ts_year ts) (ts_month ts) (ts_day ts)
  && Datetime.check_time_fields (ts_hour ts) (ts_minute ts) (ts_second ts)
  && valid_fraction (ts_fraction ts)
  && valid_zone (ts_zone ts).


End Spec.

(** ** Auxiliary definitions of the proofs *)

(** Strings all of whose characters satisfy a test. *)
Fixpoint all_chars (p : ascii -> bool) (s : string) : bool :=
  match s with
  | EmptyString => true
  | String c s' => p c && all_chars p s'
  end.

Definition not_Z (c : ascii) : bool := negb (Ascii.eqb c "Z").
Definition not_sign (c : ascii) : bool :=
  negb (Ascii.eqb c "+") && negb (Ascii.eqb c "-").

(** The microseconds a fraction stands for. *)
Definition fraction_us (f : Spec.fraction) : N :=
  match f with
  | Spec.NoFraction => 0
  | Spec.Millis n => n * 1000
  | Spec.Micros n => n
  end.

(** The UTC offset, in microseconds, a zone designator stands for. *)
Definition zone_offset (z : Spec.zone) : option Z :=
  match z with
  | Spec.NoZone => None
  | Spec.Zulu => Some 0%Z
  | Spec.Offset negative hh mm =>
      let off := (Z.of_N (hh * 3600 + mm * 60) * 1000000)%Z in
      Some (if negative then (- off)%Z else off)
  end.

(** What [replace('Z', '+00:00')] makes of a zone designator. *)
Definition zone_replaced (z : Spec.zone) : string :=
  match z with
  | Spec.Zulu => "+00:00"
  | _ => Spec.zone_text z
  end.

(** A line of the header is a rule of "=", the empty line, or a label
    followed by a value. *)
Inductive header_line : string -> Prop :=
| header_rule : header_line (rule "=")
| header_blank : header_line ""
| header_field (label value : string) :
    In label ["CONVERSATION ID: "; "Session ID: "; "Started: "; "Last Updated: ";
              "Source: "; "User ID: "] ->
    header_line (label ++ value).

(** ** Well-formed input *)

(** A message the loop body accepts: a mapping whose role (or sender) is
    a string or is absent. *)
Definition message_ok (message : json) : bool :=
  match message with
  | JObj m =>
      match Spec.role_or_sender m with
      | JStr _ => true
      | _ => false
      end
  | _ => false
  end.

(** A conversation [format_conversation] accepts: a mapping whose
    resolved messages are empty, or a list of accepted messages. *)
Definition conversation_ok (conversation : json) : bool :=
  match conversation with
  | JObj c =>
      let messages := resolve_messages c in
      if Py.truthy messages then
        match messages with
        | JArr l => forallb message_ok l
        | _ => false
        end
      else true
  | _ => false
  end.

(** The rendered blocks, each after its numbered banner. *)
Fixpoint numbered (n idx : nat) (texts : list string) : list string :=
  match texts with
  | [] => []
  | t :: rest => conv_header idx n :: t :: numbered n (S idx) rest
  end.

Definition not_lower (c : ascii) : bool := negb (is_lower c).

(** The characters from the space to the tilde. *)
Definition printable (c : ascii) : bool :=
  let n := nat_of_ascii c in (32 <=? n)%nat && (n <=? 126)%nat.

Definition count_key (key : string) (c : list (string * json)) : nat :=
  if Py.has_key key c then 1 else 0.

(** The number of messages that carry feedback. *)
Fixpoint count_feedback (messages : list json) : nat :=
  match messages with
  | [] => 0
  | JObj m :: rest => count_key "feedback" m + count_feedback rest
  | _ :: rest => count_feedback rest
  end.

(** ** Sample inputs *)

(** The block rendered for a conversation without any field. *)
Definition bare_block : string :=
  join nl [rule "="; "CONVERSATION ID: N/A"; "Session ID: N/A"; rule "="; "";
           "No transcript available."; ""; ""].

(** A failure in the second conversation, after the first was rendered
    and buffered, with an output file given. *)
Definition half_rendered : fetched :=
  Decoded "" (JArr [JObj [("id", JStr "c1")]; JStr "oops"]).

(** A message list with one message. *)
Definition one_message : json :=
  JArr [JObj [("role", JStr "user"); ("content", JStr "hi")]].

(** * Properties *)

(** ** Runs of the model on concrete inputs *)

Example repr_nested :
  Py.repr (JArr [JStr "a'b"; JInt (-5); JObj [("k", JNull); ("f", JFloat (FFinite "1.5"))]])
  = "[" ++ dquote ++ "a'b" ++ dquote ++ ", -5, {'k': None, 'f': 1.5}]".
Proof. reflexivity. Qed.

Example dumps_nested :
  Json.dumps (JObj [("conversations", JArr []); ("n", JArr [JInt 1; JBool true])])
  = "{" ++ nl ++ "  " ++ dquote ++ "conversations" ++ dquote ++ ": []," ++ nl
        ++ "  " ++ dquote ++ "n" ++ dquote ++ ": [" ++ nl
        ++ "    1," ++ nl ++ "    true" ++ nl ++ "  ]" ++ nl ++ "}".
Proof. reflexivity. Qed.

Example format_timestamp_zulu :
  format_timestamp (JStr "2025-11-04T10:00:00Z") = JStr "2025-11-04 10:00:00 UTC".
Proof. reflexivity. Qed.

Example format_timestamp_offset :
  format_timestamp (JStr "2025-11-04 10:00:00.123456-05:30") = JStr "2025-11-04 10:00:00 UTC".
Proof. reflexivity. Qed.

Example format_timestamp_date_only :
  format_timestamp (JStr "2024-02-29") = JStr "2024-02-29 00:00:00 UTC".
Proof. reflexivity. Qed.

Example format_timestamp_garbage :
  format_timestamp (JStr "yesterday") = JStr "yesterday"
  /\ format_timestamp (JStr "2025-02-29T10:00:00Z") = JStr "2025-02-29T10:00:00Z"
  /\ format_timestamp (JStr "2025-11-04T10:00:60Z") = JStr "2025-11-04T10:00:60Z"
  /\ format_timestamp (JStr "2025-11-04T10:00:00+24:00") = JStr "2025-11-04T10:00:00+24:00"
  /\ format_timestamp (JInt 5) = JInt 5.
Proof. repeat split; reflexivity. Qed.

Example run_round_trip :
  let conv :=
    JObj [("id", JStr "c1"); ("sessionId", JStr "s1");
          ("messages",
            JArr [JObj [("role", JStr "user"); ("content", JStr "hi");
                        ("timestamp", JStr "2025-11-04T10:00:00Z")];
                  JObj [("role", JStr "assistant"); ("content", JStr "hello")]])] in
  conversation_lines conv
  = Ok [rule "="; "CONVERSATION ID: c1"; "Session ID: s1"; rule "="; "";
        "TRANSCRIPT:"; rule "-";
        nl ++ "[USER] [2025-11-04 10:00:00 UTC]"; "hi";
        nl ++ "[BOT]"; "hello";
        rule "-"; ""; ""].
Proof. reflexivity. Qed.

Example run_unsubscriptable :
  main None (Decoded "" (JObj [("conversations", JInt 5)]))
  = mk_outcome
      [Print "Unexpected error: object of type 'int' has no len()";
       PrintTraceback (OtherError "TypeError" "object of type 'int' has no len()")] 1.
Proof. reflexivity. Qed.

(** ** Normalisation of the body *)

(** C3: normalisation follows the precedence "conversations", then
    "data", then the mapping itself as the only conversation, then the
    sequence itself; with both keys present "conversations" wins, and
    the three wrappings of one list give that list. *)
Theorem normalize_precedence :
  (forall d v, Py.lookup "conversations" d = Some v -> normalize (JObj d) = v)
  /\ (forall d v, Py.lookup "conversations" d = None ->
                  Py.lookup "data" d = Some v -> normalize (JObj d) = v)
  /\ (forall d, Py.lookup "conversations" d = None -> Py.lookup "data" d = None ->
                normalize (JObj d) = JArr [JObj d])
  /\ (forall l, normalize (JArr l) = JArr l)
  /\ (forall d v v', Py.lookup "conversations" d = Some v ->
                     Py.lookup "data" d = Some v' -> normalize (JObj d) = v)
  /\ (forall l, normalize (JObj [("conversations", JArr l)]) = JArr l
                /\ normalize (JObj [("data", JArr l)]) = JArr l
                /\ normalize (JArr l) = JArr l).
Proof.
  repeat split; intros; simpl; try reflexivity.
  - now rewrite H.
  - now rewrite H, H0.
  - now rewrite H, H0.
  - now rewrite H.
Qed.

Lemma normalize_precedence_witness :
  normalize (JObj [("data", JArr [JInt 1]); ("conversations", JArr [JInt 2])])
  = JArr [JInt 2]
  /\ normalize (JObj [("total", JInt 1); ("data", JArr [JInt 1])]) = JArr [JInt 1]
  /\ normalize (JObj [("id", JStr "c1")]) = JArr [JObj [("id", JStr "c1")]].
Proof.
  destruct normalize_precedence as (Hc & Hd & Hs & _).
  split; [ | split ].
  - apply Hc. reflexivity.
  - apply Hd; reflexivity.
  - apply Hs; reflexivity.
Defined.

(** ** Speaker labels *)




Lemma get_role_or_sender (m : list (string * json)) :
  Py.get "role" (Py.get "sender" (JStr "unknown") m) m = Spec.role_or_sender m.
Proof.
  unfold Py.get, Spec.role_or_sender.
  destruct (Py.lookup "role" m); reflexivity.
Qed.

(** In the ASCII model, upper-casing after lower-casing is upper-casing. *)
Lemma upper_char_lower_char (c : ascii) : upper_char (lower_char c) = upper_char c.
Proof.
  destruct c as [[] [] [] [] [] [] [] []]; reflexivity.
Qed.

Lemma upper_lower (s : string) : upper (lower s) = upper s.
Proof.
  unfold upper, lower.
  induction s as [ | c s IH ]; cbn [map_chars]; [ reflexivity | ].
  rewrite upper_char_lower_char. f_equal. exact IH.
Qed.



Example speaker_labels :
  format_message (JObj [("sender", JStr "bot")]) = Ok [nl ++ "[BOT]"; ""]
  /\ format_message (JObj [("role", JStr "moderator")]) = Ok [nl ++ "[MODERATOR]"; ""]
  /\ format_message (JObj [("sender", JStr "bot"); ("role", JStr "Human")])
     = Ok [nl ++ "[USER]"; ""]
  /\ format_message (JObj [("content", JStr "x")]) = Ok [nl ++ "[UNKNOWN]"; "x"]
  /\ format_message (JObj [("role", JStr "AI")]) = Ok [nl ++ "[BOT]"; ""].
Proof. repeat split; reflexivity. Qed.

(** ** The run as a whole *)

Lemma main_decoded (output_file : option string) (text : string) (data : json) :
  main output_file (Decoded text data)
  = match output_lines data with
    | Ok lines => mk_outcome (emit output_file (join nl lines)) 0
    | Raise e => mk_outcome (handler (Decoded text data) e) 1
    end.
Proof.
  unfold main, try_block. simpl. destruct (output_lines data); reflexivity.
Qed.

Lemma output_lines_empty (data : json) :
  Py.truthy (normalize data) = false ->
  output_lines data = Ok (Spec.no_conversations data).
Proof. intros H. unfold output_lines. now rewrite H. Qed.

(** C10: a body that is a string, a number, a boolean or null gives no
    conversation; the run ends with status 0 and its output text is the
    notice, the "Raw API Response:" line and the dump of the body, joined
    by newlines, printed or written to the output file. *)
Theorem scalar_body_no_conversations (output_file : option string)
                                     (text : string) (data : json) :
  Spec.scalar data = true ->
  normalize data = JArr []
  /\ main output_file (Decoded text data)
     = mk_outcome
         (emit output_file
            (nl ++ "No conversations found for the specified date range." ++ nl
                ++ nl ++ "Raw API Response:" ++ nl ++ Json.dumps data)) 0.
Proof.
  intros Hs.
  assert (Hn : normalize data = JArr []) by (destruct data; simpl in *; congruence).
  split; [ exact Hn | ].
  rewrite main_decoded, output_lines_empty by now rewrite Hn.
  reflexivity.
Qed.

Lemma scalar_body_no_conversations_witness :
  main None (Decoded "null" JNull)
  = mk_outcome
      [Print (nl ++ "No conversations found for the specified date range." ++ nl
                 ++ nl ++ "Raw API Response:" ++ nl ++ "null")] 0.
Proof.
  exact (proj2 (scalar_body_no_conversations None "null" JNull eq_refl)).
Defined.

(** C1, as stated, fails: the body [{}] is a mapping with neither key, so
    it is taken as one conversation; the output has no "No conversations
    found" notice. *)
Lemma empty_mapping_is_one_conversation :
  output_lines (JObj []) <> Ok (Spec.no_conversations (JObj []))
  /\ exists text,
       main None (Decoded "{}" (JObj [])) = mk_outcome [Print text] 0
       /\ contains "No conversations found" text = false
       /\ contains "FOUND 1 CONVERSATION(S)" text = true.
Proof.
  split.
  - vm_compute. discriminate.
  - eexists. split; [ reflexivity | ]. split; vm_compute; reflexivity.
Qed.

(** C1, amended: the body [{}] gives one conversation, rendered as a
    block with "N/A" identifiers and "No transcript available."; the
    notice followed by the dump of the raw body (indent 2) is the output
    whenever the normalised body is empty, as for [[]] and for
    [{"conversations": []}]. *)
Theorem empty_body_output :
  output_lines (JObj []) = Ok [found_header 1; conv_header 1 1; bare_block]
  /\ (forall data, Py.truthy (normalize data) = false ->
        output_lines data
        = Ok [nl ++ "No conversations found for the specified date range.";
              nl ++ "Raw API Response:";
              Json.dumps data])
  /\ Json.dumps (JArr []) = "[]"
  /\ Json.dumps (JObj [("conversations", JArr [])])
     = "{" ++ nl ++ "  " ++ dquote ++ "conversations" ++ dquote ++ ": []" ++ nl ++ "}".
Proof.
  split; [ reflexivity | ].
  split; [ | split; reflexivity ].
  intros data H. now rewrite output_lines_empty.
Qed.

Lemma empty_body_output_witness :
  output_lines (JArr [])
  = Ok [nl ++ "No conversations found for the specified date range.";
        nl ++ "Raw API Response:"; "[]"]
  /\ output_lines (JObj [("conversations", JArr [])])
     = Ok [nl ++ "No conversations found for the specified date range.";
           nl ++ "Raw API Response:";
           "{" ++ nl ++ "  " ++ dquote ++ "conversations" ++ dquote ++ ": []" ++ nl ++ "}"].
Proof.
  destruct empty_body_output as (_ & H & _).
  split; apply H; reflexivity.
Defined.

(** ** Exit codes and error handling *)

Lemma main_cases (output_file : option string) (w : fetched) :
  (exists evs, try_block output_file w = Ok evs
               /\ main output_file w = mk_outcome evs 0)
  \/ (exists e, try_block output_file w = Raise e
                /\ main output_file w = mk_outcome (handler w e) 1).
Proof.
  unfold main. destruct (try_block output_file w) as [evs | e].
  - left. now exists evs.
  - right. now exists e.
Qed.

(** C5: the exit code is 0 on every run whose [try] block completes,
    the run without conversations included, and 1 when the request
    fails, when the body is not decoded, and when the formatting raises. *)
Theorem exit_codes (output_file : option string) :
  (forall text data lines,
      output_lines data = Ok lines ->
      exit_code (main output_file (Decoded text data)) = 0%Z)
  /\ (forall text data,
      Py.truthy (normalize data) = false ->
      exit_code (main output_file (Decoded text data)) = 0%Z)
  /\ (forall e, exit_code (main output_file (RequestFailed e)) = 1%Z)
  /\ (forall text e, exit_code (main output_file (DecodeFailed text e)) = 1%Z)
  /\ (forall text data e,
      output_lines data = Raise e ->
      exit_code (main output_file (Decoded text data)) = 1%Z)
  /\ (forall w, exit_code (main output_file w) = 0%Z
                \/ exit_code (main output_file w) = 1%Z).
Proof.
  repeat split; intros.
  - rewrite main_decoded, H. reflexivity.
  - rewrite main_decoded, output_lines_empty by assumption. reflexivity.
  - rewrite main_decoded, H. reflexivity.
  - destruct (main_cases output_file w) as [(evs & _ & ->) | (e & _ & ->)];
      [ left | right ]; reflexivity.
Qed.

Lemma exit_codes_witness :
  exit_code (main None (Decoded "[]" (JArr []))) = 0%Z
  /\ exit_code (main None (Decoded "[5]" (JArr [JInt 5]))) = 1%Z.
Proof.
  destruct (exit_codes None) as (_ & Hempty & _ & _ & Hraise & _).
  split.
  - apply Hempty. reflexivity.
  - apply (Hraise "[5]" (JArr [JInt 5])
             (OtherError "AttributeError" "'int' object has no attribute 'get'")).
    reflexivity.
Defined.






(** ** Output file *)

(** C7: a successful run of the script with an output file as its
    argument writes to that file the very text the run without the
    argument prints, and prints one line, the confirmation, which names
    the file. *)
Theorem file_output_same_text (prog f : string) (w : fetched) :
  f <> "" ->
  exit_code (script [prog; f] w) = 0%Z ->
  exists text,
    script [prog] w = mk_outcome [Print text] 0
    /\ script [prog; f] w
       = mk_outcome
           [WriteFile f text;
            Print (nl ++ "✓ Formatted transcripts saved to: " ++ f)] 0.
Proof.
  intros Hf Hexit. unfold script, main, try_block in *.
  destruct (fetch_data w) as [data | e]; simpl in *; [ | discriminate ].
  destruct (output_lines data) as [lines | e]; simpl in *; [ | discriminate ].
  exists (join nl lines). split; [ reflexivity | ].
  apply String.eqb_neq in Hf. rewrite Hf. reflexivity.
Qed.

Lemma file_output_same_text_witness :
  exists text,
    script ["format.py"] (Decoded "[]" (JArr [])) = mk_outcome [Print text] 0
    /\ script ["format.py"; "out.txt"] (Decoded "[]" (JArr []))
       = mk_outcome
           [WriteFile "out.txt" text;
            Print (nl ++ "✓ Formatted transcripts saved to: out.txt")] 0.
Proof.
  apply (file_output_same_text "format.py" "out.txt" (Decoded "[]" (JArr []))).
  - discriminate.
  - reflexivity.
Defined.

(** ** Messages and transcript *)

Section SameButTranscript.

Variables c1 c2 : list (string * json).

(** The two conversations agree on every key but "transcript". *)
Hypothesis same_but_transcript :
  forall k, k <> "transcript" -> Py.lookup k c1 = Py.lookup k c2.

Lemma get_same (k : string) (default : json) :
  k <> "transcript" -> Py.get k default c1 = Py.get k default c2.
Proof. intros Hk. unfold Py.get. now rewrite same_but_transcript. Qed.

Lemma optional_line_same (label k : string) (f : json -> json) :
  k <> "transcript" -> optional_line label k f c1 = optional_line label k f c2.
Proof. intros Hk. unfold optional_line. now rewrite same_but_transcript. Qed.

Lemma conversation_header_same : conversation_header c1 = conversation_header c2.
Proof.
  unfold conversation_header.
  rewrite !(get_same _ (JStr "N/A")) by discriminate.
  rewrite (optional_line_same _ "createdAt"), (optional_line_same _ "updatedAt"),
    (optional_line_same _ "source"), (optional_line_same _ "userId")
    by discriminate.
  reflexivity.
Qed.

Lemma resolve_messages_same (v : json) :
  Py.lookup "messages" c1 = Some v -> Py.truthy v = true ->
  resolve_messages c1 = v /\ resolve_messages c2 = v.
Proof.
  intros Hm Ht. unfold resolve_messages, Py.get.
  rewrite <- same_but_transcript by discriminate.
  now rewrite Hm, Ht.
Qed.

Lemma format_conversation_same (v : json) :
  Py.lookup "messages" c1 = Some v -> Py.truthy v = true ->
  format_conversation (JObj c1) = format_conversation (JObj c2).
Proof.
  intros Hm Ht. destruct (resolve_messages_same v Hm Ht) as [R1 R2].
  unfold format_conversation, conversation_lines.
  now rewrite R1, R2, conversation_header_same.
Qed.

End SameButTranscript.

Lemma format_all_middle (n : nat) (a b : json) (pre post : list json) :
  format_conversation a = format_conversation b ->
  forall idx, format_all n idx (pre ++ a :: post)%list
              = format_all n idx (pre ++ b :: post)%list.
Proof.
  intros Hab. induction pre as [ | c pre IH ]; intros idx; simpl.
  - now rewrite Hab.
  - now rewrite IH.
Qed.

Lemma output_lines_middle (a b : json) (pre post : list json) :
  format_conversation a = format_conversation b ->
  output_lines (JArr (pre ++ a :: post)%list)
  = output_lines (JArr (pre ++ b :: post)%list).
Proof.
  intros Hab. unfold output_lines. simpl.
  rewrite !length_app. simpl.
  rewrite (format_all_middle _ a b pre post Hab).
  destruct pre; reflexivity.
Qed.

(** C2, as stated, fails: with "messages" present and empty, the
    "transcript" value is consulted and shows in the output. *)
Lemma empty_messages_fall_back_to_transcript :
  let c1 := [("messages", JArr []); ("transcript", JArr [])] in
  let c2 := [("messages", JArr []);
             ("transcript", JArr [JObj [("role", JStr "user"); ("content", JStr "hi")]])] in
  Py.has_key "messages" c1 = true
  /\ Py.has_key "messages" c2 = true
  /\ (forall k, k <> "transcript" -> Py.lookup k c1 = Py.lookup k c2)
  /\ format_conversation (JObj c1) <> format_conversation (JObj c2)
  /\ main None (Decoded "" (JArr [JObj c1])) <> main None (Decoded "" (JArr [JObj c2])).
Proof.
  cbv zeta. repeat split.
  - intros k Hk. cbn [Py.lookup].
    destruct (String.eqb_spec "messages" k); [ reflexivity | ].
    destruct (String.eqb_spec "transcript" k); [ | reflexivity ].
    now elim Hk.
  - vm_compute. discriminate.
  - vm_compute. discriminate.
Qed.

(** C2, amended: when a conversation has a "messages" value that is not
    empty (true in the sense of [if messages:]), its rendering does not
    depend on its "transcript" value, and neither does the run: two
    bodies that differ only there give the same outcome. *)
Theorem messages_take_priority (c1 c2 : list (string * json)) (v : json) :
  (forall k, k <> "transcript" -> Py.lookup k c1 = Py.lookup k c2) ->
  Py.lookup "messages" c1 = Some v ->
  Py.truthy v = true ->
  format_conversation (JObj c1) = format_conversation (JObj c2)
  /\ forall output_file text pre post,
       main output_file (Decoded text (JArr (pre ++ JObj c1 :: post)%list))
       = main output_file (Decoded text (JArr (pre ++ JObj c2 :: post)%list)).
Proof.
  intros Hsame Hm Ht.
  assert (Hconv := format_conversation_same c1 c2 Hsame v Hm Ht).
  split; [ exact Hconv | ].
  intros output_file text pre post.
  rewrite !main_decoded, (output_lines_middle _ _ pre post Hconv).
  destruct (output_lines _); reflexivity.
Qed.

Lemma messages_take_priority_witness :
  format_conversation (JObj [("messages", one_message); ("transcript", JArr [])])
  = format_conversation (JObj [("messages", one_message); ("transcript", JStr "other")]).
Proof.
  refine (proj1 (messages_take_priority
                   [("messages", one_message); ("transcript", JArr [])]
                   [("messages", one_message); ("transcript", JStr "other")]
                   one_message _ eq_refl eq_refl)).
  intros k Hk. cbn [Py.lookup].
  destruct (String.eqb_spec "messages" k); [ reflexivity | ].
  destruct (String.eqb_spec "transcript" k); [ now elim Hk | reflexivity ].
Defined.

(** ** Conversations without messages *)

Lemma append_assoc (a b c : string) : (a ++ b) ++ c = a ++ (b ++ c).
Proof. induction a as [ | x a IH ]; simpl; [ reflexivity | now rewrite IH ]. Qed.

Lemma append_empty_r (a : string) : a ++ "" = a.
Proof. induction a as [ | x a IH ]; simpl; [ reflexivity | now rewrite IH ]. Qed.

Lemma optional_line_header (label key : string) (f : json -> json)
                           (c : list (string * json)) (l : string) :
  In label ["CONVERSATION ID: "; "Session ID: "; "Started: "; "Last Updated: ";
            "Source: "; "User ID: "] ->
  In l (optional_line label key f c) -> header_line l.
Proof.
  intros Hlabel. unfold optional_line.
  destruct (Py.lookup key c); intros Hin.
  - destruct Hin as [<- | []]. now apply header_field.
  - destruct Hin.
Qed.

Lemma conversation_header_lines (c : list (string * json)) (l : string) :
  In l (conversation_header c) -> header_line l.
Proof.
  unfold conversation_header. rewrite !in_app_iff.
  intros [H | [H | [H | [H | [H | H]]]]].
  - destruct H as [<- | [<- | [<- | []]]].
    + apply header_rule.
    + apply header_field. simpl. tauto.
    + apply header_field. simpl. tauto.
  - revert H. apply optional_line_header. simpl. tauto.
  - revert H. apply optional_line_header. simpl. tauto.
  - revert H. apply optional_line_header. simpl. tauto.
  - revert H. apply optional_line_header. simpl. tauto.
  - destruct H as [<- | [<- | []]]; [ apply header_rule | apply header_blank ].
Qed.

Lemma header_line_not_transcript (l : string) :
  header_line l -> l <> "TRANSCRIPT:" /\ l <> rule "-".
Proof.
  intros [ | | label value Hlabel ].
  - split; vm_compute; discriminate.
  - split; vm_compute; discriminate.
  - destruct Hlabel as [<- | [<- | [<- | [<- | [<- | [<- | []]]]]]];
      split; cbn; discriminate.
Qed.





Example no_transcript_cases :
  conversation_lines (JObj [])
  = Ok [rule "="; "CONVERSATION ID: N/A"; "Session ID: N/A"; rule "="; "";
        "No transcript available."; ""; ""]
  /\ Py.truthy (resolve_messages [("messages", JArr []); ("transcript", JArr [])]) = false
  /\ Py.truthy (resolve_messages [("messages", JNull)]) = false
  /\ Py.truthy (resolve_messages [("transcript", one_message)]) = true.
Proof. repeat split; reflexivity. Qed.

(** ** Timestamps *)

Section Digits.

Import Datetime.

Lemma digit_char_cases (d : N) :
  (d < 10)%N ->
  In (digit_char d, d)
     [("0"%char, 0%N); ("1"%char, 1%N); ("2"%char, 2%N); ("3"%char, 3%N);
      ("4"%char, 4%N); ("5"%char, 5%N); ("6"%char, 6%N); ("7"%char, 7%N);
      ("8"%char, 8%N); ("9"%char, 9%N)].
Proof.
  intros Hd.
  assert (H : (d = 0 \/ d = 1 \/ d = 2 \/ d = 3 \/ d = 4 \/ d = 5 \/ d = 6
               \/ d = 7 \/ d = 8 \/ d = 9)%N) by lia.
  repeat (destruct H as [-> | H]; [ simpl; tauto | ]).
  subst d. simpl. tauto.
Qed.

(** A property of the ten digit characters holds of [digit_char d]. *)
Lemma digit_char_prop (P : ascii -> N -> Prop) (d : N) :
  (d < 10)%N ->
  P "0"%char 0%N -> P "1"%char 1%N -> P "2"%char 2%N -> P "3"%char 3%N ->
  P "4"%char 4%N -> P "5"%char 5%N -> P "6"%char 6%N -> P "7"%char 7%N ->
  P "8"%char 8%N -> P "9"%char 9%N ->
  P (digit_char d) d.
Proof.
  intros Hd; intros.
  pose proof (digit_char_cases d Hd) as Hin. simpl in Hin.
  repeat (destruct Hin as [Heq | Hin];
          [ injection Heq as <- <-; assumption | ]).
  destruct Hin.
Qed.

Lemma digit_of_digit_char (d : N) : (d < 10)%N -> digit_of (digit_char d) = Some d.
Proof.
  intros Hd.
  apply (digit_char_prop (fun c n => digit_of c = Some n) d Hd); reflexivity.
Qed.

Lemma mod10_lt (n : N) : (n mod 10 < 10)%N.
Proof. apply N.mod_lt. discriminate. Qed.

Lemma pad_length (k : nat) (n : N) : String.length (pad k n) = k.
Proof. induction k as [ | k IH ]; simpl; [ reflexivity | now rewrite IH ]. Qed.

(** Reading back the digits written by [pad]. *)
Lemma parse_digits_pad (k : nat) (n acc : N) (rest : string) :
  parse_digits k acc (pad k n ++ rest)
  = Some ((acc * 10 ^ N.of_nat k + n mod 10 ^ N.of_nat k)%N, rest).
Proof.
  revert acc. induction k as [ | k IH ]; intros acc.
  - simpl. rewrite N.mod_1_r. do 2 f_equal. lia.
  - cbn [pad append parse_digits].
    rewrite digit_of_digit_char by apply mod10_lt.
    rewrite IH. do 2 f_equal.
    rewrite Nat2N.inj_succ, N.pow_succ_r'.
    rewrite (N.mul_comm 10 (10 ^ N.of_nat k)).
    rewrite (N.Div0.mod_mul_r n (10 ^ N.of_nat k) 10).
    lia.
Qed.

Lemma parse_digits_pad_small (k : nat) (n : N) (rest : string) :
  (n < 10 ^ N.of_nat k)%N ->
  parse_digits k 0 (pad k n ++ rest) = Some (n, rest).
Proof.
  intros Hn. rewrite parse_digits_pad, N.mod_small by exact Hn. reflexivity.
Qed.

End Digits.

Lemma all_chars_app (p : ascii -> bool) (a b : string) :
  all_chars p (a ++ b) = all_chars p a && all_chars p b.
Proof.
  induction a as [ | c a IH ]; simpl; [ reflexivity | ].
  now rewrite IH, andb_assoc.
Qed.

Lemma all_chars_pad (p : ascii -> bool) (k : nat) (n : N) :
  (forall d, (d < 10)%N -> p (Datetime.digit_char d) = true) ->
  all_chars p (Datetime.pad k n) = true.
Proof.
  intros Hp. induction k as [ | k IH ]; simpl; [ reflexivity | ].
  rewrite Hp by apply mod10_lt. exact IH.
Qed.

Lemma digit_not_Z (d : N) : (d < 10)%N -> not_Z (Datetime.digit_char d) = true.
Proof.
  intros Hd.
  apply (digit_char_prop (fun c _ => not_Z c = true) d Hd); reflexivity.
Qed.

Lemma digit_not_sign (d : N) : (d < 10)%N -> not_sign (Datetime.digit_char d) = true.
Proof.
  intros Hd.
  apply (digit_char_prop (fun c _ => not_sign c = true) d Hd); reflexivity.
Qed.

Lemma replace_char_plain (by_ s rest : string) :
  all_chars not_Z s = true ->
  replace_char "Z" by_ (s ++ rest) = s ++ replace_char "Z" by_ rest.
Proof.
  induction s as [ | c s IH ]; simpl; intros Hs; [ reflexivity | ].
  apply andb_true_iff in Hs. destruct Hs as [Hc Hs].
  unfold not_Z in Hc. apply negb_true_iff in Hc. rewrite Hc.
  now rewrite IH.
Qed.

Lemma split_at_sign_plain (s rest : string) :
  all_chars not_sign s = true ->
  Datetime.split_at_sign (s ++ rest)
  = (s ++ fst (Datetime.split_at_sign rest), snd (Datetime.split_at_sign rest)).
Proof.
  induction s as [ | c s IH ]; simpl; intros Hs.
  - now destruct (Datetime.split_at_sign rest).
  - apply andb_true_iff in Hs. destruct Hs as [Hc Hs].
    unfold not_sign in Hc. apply andb_true_iff in Hc. destruct Hc as [Hp Hm].
    apply negb_true_iff in Hp, Hm. rewrite Hp, Hm, (IH Hs). reflexivity.
Qed.

Lemma length_append (a b : string) :
  String.length (a ++ b) = (String.length a + String.length b)%nat.
Proof. induction a as [ | c a IH ]; simpl; [ reflexivity | now rewrite IH ]. Qed.

Section IsoTimestamps.

Import Datetime.

Lemma parse_two (n : N) (rest : string) :
  (n < 100)%N -> parse_digits 2 0 (pad 2 n ++ rest) = Some (n, rest).
Proof. intros Hn. now apply parse_digits_pad_small. Qed.

Lemma parse_whole (k : nat) (n : N) :
  (n < 10 ^ N.of_nat k)%N -> parse_digits k 0 (pad k n) = Some (n, "").
Proof.
  intros Hn. rewrite <- (append_empty_r (pad k n)).
  now apply parse_digits_pad_small.
Qed.

Lemma parse_clock (h mi s : N) (f : Spec.fraction) :
  (h < 100)%N -> (mi < 100)%N -> (s < 100)%N -> Spec.valid_fraction f = true ->
  parse_hh_mm_ss_ff
    (pad 2 h ++ ":" ++ pad 2 mi ++ ":" ++ pad 2 s ++ Spec.fraction_text f)
  = Some (h, mi, s, fraction_us f).
Proof.
  intros Hh Hmi Hs Hf. unfold parse_hh_mm_ss_ff.
  rewrite (parse_two h) by exact Hh. cbn [append].
  rewrite (parse_two mi) by exact Hmi. cbn [append].
  rewrite (parse_two s) by exact Hs.
  destruct f as [ | n | n ]; cbn [Spec.fraction_text append fraction_us].
  - reflexivity.
  - unfold parse_fraction. rewrite pad_length.
    rewrite parse_whole by (apply N.ltb_lt; exact Hf). reflexivity.
  - unfold parse_fraction. rewrite pad_length.
    rewrite parse_whole by (apply N.ltb_lt; exact Hf). reflexivity.
Qed.

Lemma clock_no_sign (ts : Spec.iso_timestamp) :
  all_chars not_sign (Spec.clock_text ts) = true.
Proof.
  unfold Spec.clock_text.
  rewrite !all_chars_app, !all_chars_pad by exact digit_not_sign.
  destruct (Spec.ts_fraction ts); cbn [Spec.fraction_text]; try reflexivity;
    rewrite all_chars_app, all_chars_pad by exact digit_not_sign; reflexivity.
Qed.

Lemma iso_head_no_Z (ts : Spec.iso_timestamp) :
  all_chars not_Z
    (pad 4 (Spec.ts_year ts) ++ "-" ++ pad 2 (Spec.ts_month ts) ++ "-"
       ++ pad 2 (Spec.ts_day ts) ++ "T" ++ Spec.clock_text ts) = true.
Proof.
  unfold Spec.clock_text.
  rewrite !all_chars_app, !all_chars_pad by exact digit_not_Z.
  destruct (Spec.ts_fraction ts); cbn [Spec.fraction_text]; try reflexivity;
    rewrite all_chars_app, all_chars_pad by exact digit_not_Z; reflexivity.
Qed.

Lemma replace_zone (z : Spec.zone) :
  replace_char "Z" "+00:00" (Spec.zone_text z) = zone_replaced z.
Proof.
  destruct z as [ | | negative hh mm ]; try reflexivity.
  cbn [Spec.zone_text zone_replaced].
  rewrite <- (append_empty_r
                ((if negative then "-" else "+") ++ pad 2 hh ++ ":" ++ pad 2 mm)) at 1.
  rewrite replace_char_plain; [ now rewrite append_empty_r | ].
  rewrite !all_chars_app, !all_chars_pad by exact digit_not_Z.
  now destruct negative.
Qed.

Lemma replace_iso_text (ts : Spec.iso_timestamp) :
  replace_char "Z" "+00:00" (Spec.iso_text ts)
  = pad 4 (Spec.ts_year ts) ++ "-" ++ pad 2 (Spec.ts_month ts) ++ "-"
      ++ pad 2 (Spec.ts_day ts) ++ "T"
      ++ (Spec.clock_text ts ++ zone_replaced (Spec.ts_zone ts)).
Proof.
  pose proof (iso_head_no_Z ts) as Hhead.
  unfold Spec.iso_text.
  replace (pad 4 (Spec.ts_year ts) ++ "-" ++ pad 2 (Spec.ts_month ts) ++ "-"
             ++ pad 2 (Spec.ts_day ts) ++ "T"
             ++ (Spec.clock_text ts ++ Spec.zone_text (Spec.ts_zone ts)))
    with ((pad 4 (Spec.ts_year ts) ++ "-" ++ pad 2 (Spec.ts_month ts) ++ "-"
             ++ pad 2 (Spec.ts_day ts) ++ "T" ++ Spec.clock_text ts)
            ++ Spec.zone_text (Spec.ts_zone ts))
    by (now rewrite !append_assoc).
  rewrite replace_char_plain by exact Hhead.
  rewrite replace_zone. now rewrite !append_assoc.
Qed.

Lemma parse_tz_offset (negative : bool) (hh mm : N) :
  (hh < 24)%N -> (mm < 60)%N ->
  parse_tz negative (pad 2 hh ++ ":" ++ pad 2 mm)
  = zone_offset (Spec.Offset negative hh mm).
Proof.
  intros Hh Hm. unfold parse_tz.
  rewrite !length_append, !pad_length. cbn [String.length Nat.add].
  pose proof (parse_clock hh mm 0 Spec.NoFraction) as Hp.
  unfold parse_hh_mm_ss_ff in *.
  rewrite (parse_two hh) by lia. cbn [append].
  rewrite <- (append_empty_r (pad 2 mm)).
  rewrite (parse_two mm) by lia.
  cbn [zone_offset]. unfold day_us.
  replace (hh * 3600 + mm * 60 + 0)%N with (hh * 3600 + mm * 60)%N by lia.
  rewrite Z.add_0_r.
  destruct (Z.ltb_spec (Z.of_N (hh * 3600 + mm * 60) * 1000000) (86400 * 1000000));
    [ reflexivity | lia ].
Qed.

Lemma split_plus (s : string) : split_at_sign ("+" ++ s) = ("", Some (false, s)).
Proof. reflexivity. Qed.

Lemma split_minus (s : string) : split_at_sign ("-" ++ s) = ("", Some (true, s)).
Proof. reflexivity. Qed.

Lemma parse_time (ts : Spec.iso_timestamp) :
  Spec.valid ts = true ->
  parse_isoformat_time (Spec.clock_text ts ++ zone_replaced (Spec.ts_zone ts))
  = Some (Spec.ts_hour ts, Spec.ts_minute ts, Spec.ts_second ts,
          fraction_us (Spec.ts_fraction ts), zone_offset (Spec.ts_zone ts)).
Proof.
  intros Hv. unfold Spec.valid in Hv.
  apply andb_true_iff in Hv. destruct Hv as [Hv Hz].
  apply andb_true_iff in Hv. destruct Hv as [Hv Hf].
  apply andb_true_iff in Hv. destruct Hv as [_ Ht].
  unfold check_time_fields in Ht.
  apply andb_true_iff in Ht. destruct Ht as [Ht Hs].
  apply andb_true_iff in Ht. destruct Ht as [Hh Hmi].
  apply N.leb_le in Hh, Hmi, Hs.
  unfold parse_isoformat_time.
  rewrite split_at_sign_plain by apply clock_no_sign.
  assert (Hclock : forall tail, tail = "" ->
            parse_hh_mm_ss_ff (Spec.clock_text ts ++ tail)
            = Some (Spec.ts_hour ts, Spec.ts_minute ts, Spec.ts_second ts,
                    fraction_us (Spec.ts_fraction ts))).
  { intros tail ->. rewrite append_empty_r.
    unfold Spec.clock_text. apply parse_clock; try lia. exact Hf. }
  destruct (Spec.ts_zone ts) as [ | | negative hh mm ].
  - cbn [zone_replaced Spec.zone_text split_at_sign fst snd zone_offset].
    now rewrite Hclock.
  - change (zone_replaced Spec.Zulu) with ("+" ++ "00:00").
    rewrite split_plus. cbn [fst snd].
    rewrite Hclock by reflexivity. reflexivity.
  - cbn [Spec.valid_zone] in Hz.
    apply andb_true_iff in Hz. destruct Hz as [Hzh Hzm].
    apply N.ltb_lt in Hzh, Hzm.
    cbn [zone_replaced Spec.zone_text].
    destruct negative; rewrite ?split_plus, ?split_minus; cbn [fst snd];
      rewrite Hclock by reflexivity;
      rewrite parse_tz_offset by assumption; reflexivity.
Qed.

End IsoTimestamps.

Lemma days_in_month_le (y m : N) : (Datetime.days_in_month y m <= 31)%N.
Proof.
  unfold Datetime.days_in_month.
  destruct m as [ | p ]; [ lia | ].
  do 4 (try destruct p as [ p | p | ]); try destruct (Datetime.is_leap y); lia.
Qed.

Lemma fromisoformat_iso_text (ts : Spec.iso_timestamp) :
  Spec.valid ts = true ->
  Datetime.fromisoformat (replace_char "Z" "+00:00" (Spec.iso_text ts))
  = Some (Datetime.mk_datetime
            (Spec.ts_year ts) (Spec.ts_month ts) (Spec.ts_day ts)
            (Spec.ts_hour ts) (Spec.ts_minute ts) (Spec.ts_second ts)
            (fraction_us (Spec.ts_fraction ts)) (zone_offset (Spec.ts_zone ts))).
Proof.
  intros Hv. pose proof (parse_time ts Hv) as Htime.
  unfold Spec.valid in Hv.
  apply andb_true_iff in Hv. destruct Hv as [Hv _].
  apply andb_true_iff in Hv. destruct Hv as [Hv _].
  apply andb_true_iff in Hv. destruct Hv as [Hd Ht].
  apply andb_true_iff in Hd. destruct Hd as [_ Hd].
  pose proof Hd as Hdate. unfold Datetime.check_date_fields in Hd.
  repeat (apply andb_true_iff in Hd; destruct Hd as [Hd ?]).
  repeat match goal with H : (_ <=? _)%N = true |- _ => apply N.leb_le in H end.
  pose proof (days_in_month_le (Spec.ts_year ts) (Spec.ts_month ts)).
  rewrite replace_iso_text.
  unfold Datetime.fromisoformat, Datetime.parse_isoformat_date.
  rewrite parse_digits_pad_small by (change (10 ^ N.of_nat 4)%N with 10000%N; lia).
  cbn [append].
  rewrite parse_two by lia. cbn [append].
  rewrite parse_two by lia. cbn [append].
  rewrite Hdate, Htime, Ht. reflexivity.
Qed.



(** * Further properties of the formatter *)

(** ** Fields of a message *)

Lemma lookup_get (k : string) (default v : json) (m : list (string * json)) :
  Py.lookup k m = Some v -> Py.get k default m = v.
Proof. intros H. unfold Py.get. now rewrite H. Qed.

(** The text of a message comes from "content" when that key is present,
    whatever "message" and "text" hold, and from "message" when "content"
    is absent, whatever "text" holds. *)
Theorem content_key_wins (m1 m2 : list (string * json)) :
  (forall k, k <> "message" -> k <> "text" -> Py.lookup k m1 = Py.lookup k m2) ->
  (forall v, Py.lookup "content" m1 = Some v ->
     format_message (JObj m1) = format_message (JObj m2))
  /\ (forall v, Py.lookup "content" m1 = None -> Py.lookup "message" m1 = Some v ->
        Py.lookup "message" m2 = Some v ->
        format_message (JObj m1) = format_message (JObj m2)).
Proof.
  intros Hsame.
  assert (Hk : forall k, k <> "message" -> k <> "text" ->
                 forall dflt, Py.get k dflt m1 = Py.get k dflt m2).
  { intros k H1 H2 dflt. unfold Py.get. now rewrite Hsame. }
  assert (Hrole : message_role m1 = message_role m2).
  { unfold message_role.
    rewrite (Hk "sender") by discriminate. now rewrite (Hk "role") by discriminate. }
  assert (Hts : message_timestamp m1 = message_timestamp m2).
  { unfold message_timestamp.
    rewrite (Hsame "createdAt"), (Hsame "timestamp") by discriminate. reflexivity. }
  assert (Hfb : Py.lookup "feedback" m1 = Py.lookup "feedback" m2)
    by (apply Hsame; discriminate).
  split.
  - intros v Hc.
    assert (Hc2 : Py.lookup "content" m2 = Some v)
      by (rewrite <- Hsame by discriminate; exact Hc).
    unfold format_message, message_content.
    rewrite (lookup_get "content" _ v m1 Hc), (lookup_get "content" _ v m2 Hc2).
    now rewrite Hrole, Hts, Hfb.
  - intros v Hc Hm1 Hm2.
    assert (Hc2 : Py.lookup "content" m2 = None)
      by (rewrite <- Hsame by discriminate; exact Hc).
    unfold format_message, message_content.
    unfold Py.get at 1 4. rewrite Hc, Hc2.
    rewrite (lookup_get "message" _ v m1 Hm1), (lookup_get "message" _ v m2 Hm2).
    now rewrite Hrole, Hts, Hfb.
Qed.

Lemma content_key_wins_witness :
  format_message (JObj [("content", JStr "hi"); ("message", JStr "a")])
  = format_message (JObj [("content", JStr "hi"); ("text", JStr "b")]).
Proof.
  refine (proj1 (content_key_wins
                   [("content", JStr "hi"); ("message", JStr "a")]
                   [("content", JStr "hi"); ("text", JStr "b")] _)
                (JStr "hi") eq_refl).
  intros k H1 H2. cbn [Py.lookup].
  destruct (String.eqb_spec "content" k); [ reflexivity | ].
  destruct (String.eqb_spec "message" k); [ now elim H1 | ].
  destruct (String.eqb_spec "text" k); [ now elim H2 | reflexivity ].
Defined.

(** The time of a message comes from "createdAt" when that key is
    present, whatever "timestamp" holds; without both keys the speaker
    line has no bracketed time. *)
Theorem created_at_wins (m1 m2 : list (string * json)) :
  (forall k, k <> "timestamp" -> Py.lookup k m1 = Py.lookup k m2) ->
  (forall t, Py.lookup "createdAt" m1 = Some t ->
     format_message (JObj m1) = format_message (JObj m2))
  /\ (Py.lookup "createdAt" m1 = None -> Py.lookup "timestamp" m1 = None ->
      message_timestamp m1 = "").
Proof.
  intros Hsame. split.
  - intros t Hc.
    assert (Hc2 : Py.lookup "createdAt" m2 = Some t)
      by (rewrite <- Hsame by discriminate; exact Hc).
    unfold format_message, message_role, message_content, message_timestamp, Py.get.
    rewrite Hc, Hc2.
    rewrite <- !(Hsame "role"), <- !(Hsame "sender"), <- !(Hsame "content"),
      <- !(Hsame "message"), <- !(Hsame "text"), <- !(Hsame "feedback")
      by discriminate.
    reflexivity.
  - intros Hc Ht. unfold message_timestamp. now rewrite Hc, Ht.
Qed.

Lemma created_at_wins_witness :
  format_message (JObj [("createdAt", JStr "2025-11-04T10:00:00Z");
                        ("timestamp", JStr "2020-01-01T00:00:00Z")])
  = format_message (JObj [("createdAt", JStr "2025-11-04T10:00:00Z")]).
Proof.
  refine (proj1 (created_at_wins
                   [("createdAt", JStr "2025-11-04T10:00:00Z");
                    ("timestamp", JStr "2020-01-01T00:00:00Z")]
                   [("createdAt", JStr "2025-11-04T10:00:00Z")] _)
                (JStr "2025-11-04T10:00:00Z") eq_refl).
  intros k Hk. cbn [Py.lookup].
  destruct (String.eqb_spec "createdAt" k); [ reflexivity | ].
  destruct (String.eqb_spec "timestamp" k); [ now elim Hk | reflexivity ].
Defined.

(** ** The message loop *)

Lemma format_message_accepts (message : json) :
  (exists lines, format_message message = Ok lines) <-> message_ok message = true.
Proof.
  destruct message as [ | b | z | f | s | l | m ]; simpl;
    try (split; [ intros [lines H]; discriminate | discriminate ]).
  unfold message_role. rewrite get_role_or_sender.
  destruct (Spec.role_or_sender m); simpl;
    try (split; [ intros [lines H]; discriminate | discriminate ]).
  split; [ reflexivity | intros _; eexists; reflexivity ].
Qed.

Lemma format_message_refuses (message : json) :
  message_ok message = false -> exists e, format_message message = Raise e.
Proof.
  intros Hno. destruct (format_message message) as [lines | e] eqn:H.
  - assert (Hok : message_ok message = true)
      by (apply format_message_accepts; now exists lines).
    congruence.
  - now exists e.
Qed.

(** Rendering messages goes message by message and in order: the lines
    of a list in two parts are the lines of the first part followed by
    those of the second, and a failure in the first part is the failure
    of the whole. *)
Theorem format_messages_app (a b : list json) :
  format_messages (a ++ b)%list
  = match format_messages a with
    | Ok la =>
        match format_messages b with
        | Ok lb => Ok (la +++ lb)
        | Raise e => Raise e
        end
    | Raise e => Raise e
    end.
Proof.
  induction a as [ | m a IH ]; simpl.
  - destruct (format_messages b); reflexivity.
  - destruct (format_message m) as [lm | e]; simpl; [ | reflexivity ].
    rewrite IH.
    destruct (format_messages a) as [la | e]; simpl; [ | reflexivity ].
    destruct (format_messages b) as [lb | e]; simpl; [ | reflexivity ].
    now rewrite app_assoc.
Qed.

(** Each message gives two lines, the speaker line and the text, and a
    third when it carries feedback. *)
Theorem format_messages_length (messages : list json) (lines : list string) :
  format_messages messages = Ok lines ->
  List.length lines = (2 * List.length messages + count_feedback messages)%nat.
Proof.
  revert lines. induction messages as [ | m rest IH ]; intros lines H; simpl in H.
  - injection H as <-. reflexivity.
  - destruct (format_message m) as [lm | e] eqn:Hm; simpl in H; [ | discriminate ].
    destruct (format_messages rest) as [lr | e]; simpl in H; [ | discriminate ].
    injection H as <-. rewrite length_app, (IH lr eq_refl).
    destruct m as [ | b | z | f | s | l | d ]; simpl in Hm; try discriminate.
    destruct (message_role d); simpl in Hm; [ | discriminate ].
    injection Hm as <-. cbn [count_feedback List.length].
    unfold count_key, Py.has_key.
    destruct (Py.lookup "feedback" d); simpl; lia.
Qed.

Lemma format_messages_length_witness :
  List.length
    [nl ++ "[USER]"; "hi"; "  Feedback: good"; nl ++ "[BOT]"; "hello"] = 5%nat.
Proof.
  exact (format_messages_length
           [JObj [("role", JStr "user"); ("content", JStr "hi");
                  ("feedback", JStr "good")];
            JObj [("role", JStr "bot"); ("content", JStr "hello")]]
           _ eq_refl).
Defined.

(** The message loop stops at the first message it does not accept: the
    error of the run of messages is the error of that message, whatever
    follows it. *)
Theorem format_messages_first_failure (pre post : list json) (m : json) (e : exn) :
  forallb message_ok pre = true ->
  format_message m = Raise e ->
  format_messages (pre ++ m :: post)%list = Raise e.
Proof.
  intros Hpre Hm. induction pre as [ | p pre IH ]; simpl.
  - now rewrite Hm.
  - simpl in Hpre. apply andb_true_iff in Hpre. destruct Hpre as [Hp Hpre].
    apply format_message_accepts in Hp. destruct Hp as [lp ->]. simpl.
    now rewrite (IH Hpre).
Qed.

Lemma format_messages_first_failure_witness :
  format_messages [JObj [("role", JStr "user")]; JInt 7; JNull]
  = Raise (OtherError "AttributeError" "'int' object has no attribute 'get'").
Proof.
  exact (format_messages_first_failure
           [JObj [("role", JStr "user")]] [JNull] (JInt 7) _ eq_refl eq_refl).
Defined.

Lemma format_messages_accepts (messages : list json) :
  (exists lines, format_messages messages = Ok lines)
  <-> forallb message_ok messages = true.
Proof.
  induction messages as [ | m rest IH ]; simpl.
  - split; [ reflexivity | intros _; eexists; reflexivity ].
  - rewrite andb_true_iff, <- IH, <- format_message_accepts.
    destruct (format_message m) as [lm | e]; simpl.
    + destruct (format_messages rest) as [lr | e']; simpl.
      * split; [ intros _; split; eexists; reflexivity
               | intros _; eexists; reflexivity ].
      * split; [ intros [x H]; discriminate | intros [_ [x H]]; discriminate ].
    + split; [ intros [x H]; discriminate | intros [[x H] _]; discriminate ].
Qed.

(** ** Accepted conversations *)

Lemma conversation_lines_accepts (conversation : json) :
  (exists lines, conversation_lines conversation = Ok lines)
  <-> conversation_ok conversation = true.
Proof.
  destruct conversation as [ | b | z | f | s | l | c ]; simpl;
    try (split; [ intros [x H]; discriminate | discriminate ]).
  destruct (Py.truthy (resolve_messages c)) eqn:Ht;
    [ | split; [ reflexivity | intros _; eexists; reflexivity ] ].
  destruct (resolve_messages c) as [ | b | z | f | s | l | d ]; simpl in *;
    try (split; [ intros [x H]; discriminate | discriminate ]).
  - destruct s as [ | a s ]; [ discriminate | ]. simpl.
    split; [ intros [x H]; discriminate | discriminate ].
  - rewrite <- format_messages_accepts.
    destruct (format_messages l) as [ls | e]; simpl.
    + split; intros _; eexists; reflexivity.
    + split; intros [x H]; discriminate.
  - destruct d as [ | [k v] d ]; [ discriminate | ]. simpl.
    split; [ intros [x H]; discriminate | discriminate ].
Qed.

Lemma accepted_renders (conversation : json) :
  conversation_ok conversation = true ->
  exists text, format_conversation conversation = Ok text.
Proof.
  intros Hok. apply conversation_lines_accepts in Hok. destruct Hok as [lines H].
  unfold format_conversation. rewrite H. eexists. reflexivity.
Qed.

Lemma rendered_accepted (conversation : json) (text : string) :
  format_conversation conversation = Ok text ->
  conversation_ok conversation = true.
Proof.
  unfold format_conversation. intros H. apply conversation_lines_accepts.
  destruct (conversation_lines conversation) as [lines | e]; [ | discriminate ].
  now exists lines.
Qed.

(** [format_conversation] returns a text exactly for a mapping whose
    resolved messages are empty or a list of mappings with a string (or
    no) role; a string, a mapping or a number as the message value, a
    message that is not a mapping and a role that is not a string all
    make it raise. *)
Theorem format_conversation_accepts (conversation : json) :
  (exists text, format_conversation conversation = Ok text)
  <-> conversation_ok conversation = true.
Proof.
  split.
  - intros [text H]. now apply rendered_accepted with text.
  - apply accepted_renders.
Qed.

(** ** The conversation loop *)

Lemma format_all_accepts (n : nat) (conversations : list json) :
  forall idx,
    (exists out, format_all n idx conversations = Ok out)
    <-> forallb conversation_ok conversations = true.
Proof.
  induction conversations as [ | c rest IH ]; intros idx; simpl.
  - split; [ reflexivity | intros _; eexists; reflexivity ].
  - rewrite andb_true_iff, <- (IH (S idx)).
    destruct (format_conversation c) as [t | e] eqn:Hc; simpl.
    + apply rendered_accepted in Hc.
      destruct (format_all n (S idx) rest) as [more | e']; simpl.
      * split; [ intros _; split; [ exact Hc | eexists; reflexivity ]
               | intros _; eexists; reflexivity ].
      * split; [ intros [x H]; discriminate | intros [_ [x H]]; discriminate ].
    + split; [ intros [x H]; discriminate | ].
      intros [Hok _]. apply accepted_renders in Hok. destruct Hok as [t Ht].
      congruence.
Qed.

Lemma format_all_numbered (n : nat) (conversations : list json) (texts : list string) :
  Forall2 (fun c t => format_conversation c = Ok t) conversations texts ->
  forall idx, format_all n idx conversations = Ok (numbered n idx texts).
Proof.
  induction 1 as [ | c t rest texts Hc _ IH ]; intros idx; simpl.
  - reflexivity.
  - now rewrite Hc, IH.
Qed.

Lemma output_lines_list (l : list json) :
  output_lines (JArr l)
  = match l with
    | [] => Ok (Spec.no_conversations (JArr []))
    | _ =>
        match format_all (List.length l) 1 l with
        | Ok blocks => Ok (found_header (List.length l) :: blocks)
        | Raise e => Raise e
        end
    end.
Proof.
  destruct l as [ | c rest ]; [ reflexivity | ].
  unfold output_lines. simpl.
  destruct (format_conversation c); simpl; [ | reflexivity ].
  destruct (format_all _ 2 rest); reflexivity.
Qed.

(** For a body that is a list, the run ends with status 0 exactly when
    every item is an accepted conversation: one item that is not makes
    the whole run fail, whatever the others are. *)
Theorem list_run_succeeds_iff (output_file : option string) (text : string)
                              (l : list json) :
  exit_code (main output_file (Decoded text (JArr l))) = 0%Z
  <-> forallb conversation_ok l = true.
Proof.
  rewrite main_decoded, output_lines_list.
  destruct l as [ | c rest ]; [ simpl; tauto | ].
  rewrite <- (format_all_accepts (List.length (c :: rest)) (c :: rest) 1).
  destruct (format_all _ 1 (c :: rest)) as [blocks | e]; simpl.
  - split; [ intros _; eexists; reflexivity | reflexivity ].
  - split; [ discriminate | intros [x H]; discriminate ].
Qed.

(** On success the output lines of a list body are the banner with the
    number of conversations, then for each conversation, in order and
    numbered from 1, its banner and its rendered text. *)
Theorem output_lines_numbered (c : json) (rest : list json) (texts : list string) :
  Forall2 (fun x t => format_conversation x = Ok t) (c :: rest) texts ->
  output_lines (JArr (c :: rest))
  = Ok (found_header (S (List.length rest))
          :: numbered (S (List.length rest)) 1 texts).
Proof.
  intros Hall. rewrite output_lines_list.
  now rewrite (format_all_numbered _ _ _ Hall).
Qed.

Lemma output_lines_numbered_witness :
  output_lines (JArr [JObj []; JObj []])
  = Ok [found_header 2; conv_header 1 2; bare_block; conv_header 2 2; bare_block].
Proof.
  apply (output_lines_numbered (JObj []) [JObj []] [bare_block; bare_block]).
  repeat constructor.
Defined.

(** A conversations value that is not empty and not a list, whether a
    string, a mapping or a number, makes the run fail with status 1. *)
Theorem conversations_must_be_list (output_file : option string) (text : string)
                                   (data : json) :
  Py.truthy (normalize data) = true ->
  (forall l, normalize data <> JArr l) ->
  exit_code (main output_file (Decoded text data)) = 1%Z.
Proof.
  intros Ht Hnot. rewrite main_decoded. unfold output_lines. rewrite Ht.
  destruct (normalize data) as [ | b | z | f | s | l | d ]; simpl in *;
    try reflexivity; try discriminate.
  - destruct s as [ | a s ]; [ discriminate | reflexivity ].
  - now elim (Hnot l).
  - destruct d as [ | [k v] d ]; [ discriminate | reflexivity ].
Qed.

Lemma conversations_must_be_list_witness :
  exit_code (main None (Decoded "" (JObj [("conversations", JStr "none")]))) = 1%Z.
Proof.
  apply conversations_must_be_list; [ reflexivity | discriminate ].
Defined.



(** A mapping with neither a "conversations" nor a "data" key is always
    one conversation, the empty mapping included: the output is the
    banner for one conversation and the rendering of the mapping. *)
Theorem bare_mapping_is_one_conversation (d : list (string * json)) :
  Py.lookup "conversations" d = None ->
  Py.lookup "data" d = None ->
  output_lines (JObj d)
  = match format_conversation (JObj d) with
    | Ok text => Ok [found_header 1; conv_header 1 1; text]
    | Raise e => Raise e
    end.
Proof.
  intros Hc Hd. unfold output_lines. simpl normalize. rewrite Hc, Hd. simpl.
  destruct (format_conversation (JObj d)); reflexivity.
Qed.

Lemma bare_mapping_is_one_conversation_witness :
  exists text,
    output_lines (JObj [("id", JStr "c1")])
    = Ok [found_header 1; conv_header 1 1; text].
Proof.
  eexists.
  exact (bare_mapping_is_one_conversation [("id", JStr "c1")] eq_refl eq_refl).
Defined.

Lemma format_all_first_failure (n : nat) (pre post : list json) (c : json) (e : exn) :
  forallb conversation_ok pre = true ->
  format_conversation c = Raise e ->
  forall idx, format_all n idx (pre ++ c :: post)%list = Raise e.
Proof.
  intros Hpre Hc. induction pre as [ | p pre IH ]; intros idx; simpl.
  - now rewrite Hc.
  - simpl in Hpre. apply andb_true_iff in Hpre. destruct Hpre as [Hp Hpre].
    apply accepted_renders in Hp. destruct Hp as [t ->]. simpl.
    now rewrite (IH Hpre).
Qed.

(** When a conversation of a list body is not accepted, the run reports
    the error of the first such conversation through the handler and
    ends with status 1; what was rendered before it is not emitted. *)
Theorem run_reports_first_failure (output_file : option string) (text : string)
                                  (pre post : list json) (c : json) (e : exn) :
  forallb conversation_ok pre = true ->
  format_conversation c = Raise e ->
  main output_file (Decoded text (JArr (pre ++ c :: post)%list))
  = mk_outcome (handler (Decoded text (JArr (pre ++ c :: post)%list)) e) 1.
Proof.
  intros Hpre Hc. rewrite main_decoded, output_lines_list.
  rewrite (format_all_first_failure _ pre post c e Hpre Hc).
  destruct pre; reflexivity.
Qed.

Lemma run_reports_first_failure_witness :
  main (Some "out.txt") half_rendered
  = mk_outcome
      [Print "Unexpected error: 'str' object has no attribute 'get'";
       PrintTraceback
         (OtherError "AttributeError" "'str' object has no attribute 'get'")] 1.
Proof.
  exact (run_reports_first_failure (Some "out.txt") ""
           [JObj [("id", JStr "c1")]] [] (JStr "oops") _ eq_refl eq_refl).
Defined.

(** ** The frame of a block *)

Lemma conversation_header_cons (c : list (string * json)) :
  conversation_header c = rule "=" :: tl (conversation_header c).
Proof. reflexivity. Qed.

Lemma app_frame (a b c d e : list string) :
  a +++ b +++ c +++ d +++ e = (a +++ b +++ c +++ d) +++ e.
Proof. now rewrite !app_assoc. Qed.

(** The lines of a rendered conversation start with the rule of "=" and
    end with two empty lines, and the line "TRANSCRIPT:" is among them
    exactly when the resolved messages are not empty. *)
Theorem block_frame (c : list (string * json)) (lines : list string) :
  conversation_lines (JObj c) = Ok lines ->
  (exists middle, lines = rule "=" :: (middle +++ [""; ""]))
  /\ (In "TRANSCRIPT:" lines <-> Py.truthy (resolve_messages c) = true).
Proof.
  unfold conversation_lines.
  destruct (Py.truthy (resolve_messages c)) eqn:Ht.
  - destruct (iterate (resolve_messages c)) as [items | e]; cbn [bind];
      [ | discriminate ].
    destruct (format_messages items) as [body | e]; cbn [bind]; [ | discriminate ].
    intros H. injection H as <-. split.
    + exists (tl (conversation_header c) +++ ["TRANSCRIPT:"; rule "-"] +++ body
                +++ [rule "-"]).
      transitivity
        (rule "=" :: (tl (conversation_header c) +++ ["TRANSCRIPT:"; rule "-"]
                        +++ body +++ [rule "-"] +++ [""; ""]));
        [ reflexivity | f_equal; apply app_frame ].
    + split; [ reflexivity | intros _ ].
      change (In "TRANSCRIPT:"
                (conversation_header c +++ ["TRANSCRIPT:"; rule "-"] +++ body
                   +++ [rule "-"] +++ [""; ""])).
      apply in_or_app. right. simpl. tauto.
  - intros H. injection H as <-. split.
    + exists (tl (conversation_header c) +++ ["No transcript available."]).
      transitivity
        (rule "=" :: (tl (conversation_header c) +++ ["No transcript available."]
                        +++ [""; ""]));
        [ reflexivity | f_equal; apply app_assoc ].
    + split; [ | discriminate ].
      intros Hin.
      change (In "TRANSCRIPT:"
                (conversation_header c +++ ["No transcript available."; ""; ""]))
        in Hin.
      apply in_app_or in Hin. destruct Hin as [Hin | Hin].
      * apply conversation_header_lines, header_line_not_transcript in Hin.
        now destruct Hin.
      * destruct Hin as [Heq | [Heq | [Heq | []]]]; discriminate.
Qed.

Lemma block_frame_witness :
  (exists middle,
     [rule "="; "CONVERSATION ID: N/A"; "Session ID: N/A"; rule "="; "";
      "No transcript available."; ""; ""] = rule "=" :: (middle +++ [""; ""]))
  /\ (In "TRANSCRIPT:"
        [rule "="; "CONVERSATION ID: N/A"; "Session ID: N/A"; rule "="; "";
         "No transcript available."; ""; ""]
      <-> Py.truthy (resolve_messages []) = true).
Proof.
  exact (block_frame [] _ eq_refl).
Defined.

(** The header has its five fixed lines and one more for each of the
    keys "createdAt", "updatedAt", "source" and "userId" that is present. *)
Theorem header_length (c : list (string * json)) :
  List.length (conversation_header c)
  = (5 + count_key "createdAt" c + count_key "updatedAt" c
       + count_key "source" c + count_key "userId" c)%nat.
Proof.
  unfold conversation_header, optional_line, count_key, Py.has_key.
  rewrite !length_app.
  destruct (Py.lookup "createdAt" c), (Py.lookup "updatedAt" c),
    (Py.lookup "source" c), (Py.lookup "userId" c); reflexivity.
Qed.

(** ** Labels *)

Lemma upper_char_not_lower (c : ascii) : not_lower (upper_char c) = true.
Proof. destruct c as [[] [] [] [] [] [] [] []]; reflexivity. Qed.

Lemma upper_not_lower (s : string) : all_chars not_lower (upper s) = true.
Proof.
  unfold upper. induction s as [ | c s IH ]; cbn [map_chars all_chars];
    [ reflexivity | ].
  now rewrite upper_char_not_lower, IH.
Qed.

(** A speaker label holds no lower-case letter, whatever the role. *)
Theorem speaker_label_upper_case (role : string) :
  all_chars not_lower (speaker_of_role role) = true.
Proof.
  unfold speaker_of_role.
  destruct (in_list role ["user"; "human"]); [ reflexivity | ].
  destruct (in_list role ["assistant"; "bot"; "ai"; "agent"]); [ reflexivity | ].
  apply upper_not_lower.
Qed.

(** ** More on timestamps *)

Lemma replace_char_none (s : string) :
  all_chars not_Z s = true -> replace_char "Z" "+00:00" s = s.
Proof.
  intros Hs. rewrite <- (append_empty_r s) at 1.
  rewrite replace_char_plain by exact Hs. simpl. apply append_empty_r.
Qed.

Lemma strftime_no_Z (dt : Datetime.datetime) :
  all_chars not_Z (Datetime.strftime dt) = true.
Proof.
  unfold Datetime.strftime.
  rewrite !all_chars_app, !all_chars_pad by exact digit_not_Z. reflexivity.
Qed.

Lemma clock_utc_unparsed (h mi s : N) :
  Datetime.parse_isoformat_time
    (Datetime.pad 2 h ++ ":" ++ Datetime.pad 2 mi ++ ":" ++ Datetime.pad 2 s ++ " UTC")
  = None.
Proof.
  unfold Datetime.parse_isoformat_time.
  rewrite <- (append_empty_r
               (Datetime.pad 2 h ++ ":" ++ Datetime.pad 2 mi ++ ":"
                  ++ Datetime.pad 2 s ++ " UTC")).
  rewrite split_at_sign_plain
    by (rewrite !all_chars_app, !all_chars_pad by exact digit_not_sign; reflexivity).
  cbn [Datetime.split_at_sign fst snd]. rewrite !append_empty_r.
  unfold Datetime.parse_hh_mm_ss_ff.
  rewrite parse_digits_pad. cbn [append].
  rewrite parse_digits_pad. cbn [append].
  rewrite parse_digits_pad. reflexivity.
Qed.

Lemma strftime_unparsed (dt : Datetime.datetime) :
  Datetime.fromisoformat (replace_char "Z" "+00:00" (Datetime.strftime dt)) = None.
Proof.
  rewrite replace_char_none by apply strftime_no_Z.
  unfold Datetime.fromisoformat, Datetime.parse_isoformat_date, Datetime.strftime.
  rewrite parse_digits_pad. cbn [append].
  rewrite parse_digits_pad. cbn [append].
  rewrite parse_digits_pad. cbn [append].
  destruct (Datetime.check_date_fields _ _ _); [ | reflexivity ].
  pose proof (clock_utc_unparsed (Datetime.hour dt) (Datetime.minute dt)
                (Datetime.second dt)) as Hclock.
  cbn [append] in Hclock. now rewrite Hclock.
Qed.

(** Formatting a timestamp twice gives what formatting it once gives:
    the rendered text is not itself read as a timestamp. *)
Theorem format_timestamp_idempotent (v : json) :
  format_timestamp (format_timestamp v) = format_timestamp v.
Proof.
  destruct v as [ | b | z | f | s | l | d ]; try reflexivity.
  unfold format_timestamp at 2 3. unfold format_timestamp_try.
  destruct (Datetime.fromisoformat (replace_char "Z" "+00:00" s)) as [dt | ] eqn:Hs.
  - unfold format_timestamp, format_timestamp_try.
    now rewrite strftime_unparsed.
  - unfold format_timestamp, format_timestamp_try. now rewrite Hs.
Qed.

(** The zone designator and the fraction of a valid timestamp do not
    show in its rendering: the time of day is printed as written, not
    converted to UTC. *)
Theorem zone_not_applied (ts1 ts2 : Spec.iso_timestamp) :
  Spec.valid ts1 = true -> Spec.valid ts2 = true ->
  Spec.ts_year ts1 = Spec.ts_year ts2 ->
  Spec.ts_month ts1 = Spec.ts_month ts2 ->
  Spec.ts_day ts1 = Spec.ts_day ts2 ->
  Spec.ts_hour ts1 = Spec.ts_hour ts2 ->
  Spec.ts_minute ts1 = Spec.ts_minute ts2 ->
  Spec.ts_second ts1 = Spec.ts_second ts2 ->
  format_timestamp (JStr (Spec.iso_text ts1)) = format_timestamp (JStr (Spec.iso_text ts2)).
Proof.
  intros V1 V2 Hy Hmo Hd Hh Hmi Hs.
  unfold format_timestamp, format_timestamp_try.
  rewrite (fromisoformat_iso_text ts1 V1), (fromisoformat_iso_text ts2 V2).
  unfold Datetime.strftime. cbn [Datetime.year Datetime.month Datetime.day
    Datetime.hour Datetime.minute Datetime.second].
  now rewrite Hy, Hmo, Hd, Hh, Hmi, Hs.
Qed.

Lemma zone_not_applied_witness :
  format_timestamp (JStr "2025-11-04T10:00:00+05:30")
  = format_timestamp (JStr "2025-11-04T10:00:00.125Z").
Proof.
  exact (zone_not_applied
           (Spec.mk_iso 2025 11 4 10 0 0 Spec.NoFraction (Spec.Offset false 5 30))
           (Spec.mk_iso 2025 11 4 10 0 0 (Spec.Millis 125) Spec.Zulu)
           eq_refl eq_refl eq_refl eq_refl eq_refl eq_refl eq_refl eq_refl).
Defined.

Lemma date_text_no_Z (y m d : N) :
  all_chars not_Z (Datetime.pad 4 y ++ "-" ++ Datetime.pad 2 m ++ "-" ++ Datetime.pad 2 d)
  = true.
Proof.
  rewrite !all_chars_app, !all_chars_pad by exact digit_not_Z. reflexivity.
Qed.

Lemma parse_date_text (y m d : N) (rest : string) :
  (y < 10000)%N -> (m < 100)%N -> (d < 100)%N ->
  Datetime.parse_isoformat_date
    (Datetime.pad 4 y ++ "-" ++ Datetime.pad 2 m ++ "-" ++ Datetime.pad 2 d ++ rest)
  = Some (y, m, d, rest).
Proof.
  intros Hy Hm Hd. unfold Datetime.parse_isoformat_date.
  rewrite parse_digits_pad_small by exact Hy. cbn [append].
  rewrite parse_two by exact Hm. cbn [append].
  rewrite parse_two by exact Hd. reflexivity.
Qed.



Lemma date_text_app (y m d : N) (rest : string) :
  (Datetime.pad 4 y ++ "-" ++ Datetime.pad 2 m ++ "-" ++ Datetime.pad 2 d) ++ rest
  = Datetime.pad 4 y ++ "-" ++ Datetime.pad 2 m ++ "-" ++ Datetime.pad 2 d ++ rest.
Proof. now rewrite !append_assoc. Qed.

(** A text that starts with a date which is not in the calendar (a month
    above 12, a day the month does not have, the year 0) is returned as
    it is, whatever follows the date. *)
Theorem invalid_date_unchanged (y m d : N) (rest : string) :
  (y < 10000)%N -> (m < 100)%N -> (d < 100)%N ->
  Datetime.check_date_fields y m d = false ->
  format_timestamp
    (JStr ((Datetime.pad 4 y ++ "-" ++ Datetime.pad 2 m ++ "-" ++ Datetime.pad 2 d)
             ++ rest))
  = JStr ((Datetime.pad 4 y ++ "-" ++ Datetime.pad 2 m ++ "-" ++ Datetime.pad 2 d)
            ++ rest).
Proof.
  intros Hy Hm Hd Hdate.
  unfold format_timestamp, format_timestamp_try.
  rewrite replace_char_plain by apply date_text_no_Z.
  unfold Datetime.fromisoformat.
  rewrite (date_text_app y m d (replace_char "Z" "+00:00" rest)).
  rewrite parse_date_text by assumption.
  now rewrite Hdate.
Qed.

Lemma invalid_date_unchanged_witness :
  format_timestamp (JStr "2025-02-30T10:00:00Z") = JStr "2025-02-30T10:00:00Z".
Proof.
  exact (invalid_date_unchanged 2025 2 30 "T10:00:00Z" eq_refl eq_refl eq_refl eq_refl).
Defined.

(** ** The dump of a string *)

Lemma escape_char_printable (c : ascii) :
  all_chars printable (Json.escape_char c) = true.
Proof. destruct c as [[] [] [] [] [] [] [] []]; reflexivity. Qed.

(** The dump of a string body is one line of printable ASCII: every
    control character, and every character above the tilde, is escaped. *)
Theorem dumps_string_printable (s : string) :
  all_chars printable (Json.dumps (JStr s)) = true.
Proof.
  unfold Json.dumps. cbn [Json.dumps_at]. unfold Json.quote.
  rewrite !all_chars_app.
  assert (H : all_chars printable (Json.escape s) = true).
  { induction s as [ | c s IH ]; [ reflexivity | ].
    cbn [Json.escape]. now rewrite all_chars_app, escape_char_printable, IH. }
  now rewrite H.
Qed.

(** ** Shapes of the body and of a conversation *)

(** When there are conversations, the output depends on the body only
    through its normalised value: a list gives the same lines bare, under
    "conversations" and under "data". (Without conversations the dump
    shows the body as it came.) *)
Theorem output_depends_on_normalized (d1 d2 : json) :
  normalize d1 = normalize d2 ->
  Py.truthy (normalize d1) = true ->
  output_lines d1 = output_lines d2.
Proof.
  intros Hn Ht. unfold output_lines. rewrite <- Hn, Ht. reflexivity.
Qed.

Lemma output_depends_on_normalized_witness :
  output_lines (JObj [("conversations", JArr [JObj []])])
  = output_lines (JObj [("data", JArr [JObj []])])
  /\ output_lines (JObj [("data", JArr [JObj []])]) = output_lines (JArr [JObj []]).
Proof.
  split; apply output_depends_on_normalized; reflexivity.
Defined.

Lemma conversation_header_ext (c1 c2 : list (string * json)) :
  (forall k, In k ["id"; "sessionId"; "createdAt"; "updatedAt"; "source"; "userId"] ->
             Py.lookup k c1 = Py.lookup k c2) ->
  conversation_header c1 = conversation_header c2.
Proof.
  intros H. unfold conversation_header, optional_line, Py.get.
  rewrite (H "id"), (H "sessionId"), (H "createdAt"), (H "updatedAt"),
    (H "source"), (H "userId") by (simpl; tauto).
  reflexivity.
Qed.

(** "transcript" stands in fully for "messages": a conversation whose
    "messages" are absent or empty and whose "transcript" is [v] is
    rendered as the conversation that has [v] under "messages". *)
Theorem transcript_stands_in (c1 c2 : list (string * json)) (v : json) :
  (forall k, k <> "messages" -> k <> "transcript" -> Py.lookup k c1 = Py.lookup k c2) ->
  Py.truthy (Py.get "messages" (JArr []) c1) = false ->
  Py.lookup "transcript" c1 = Some v ->
  Py.lookup "messages" c2 = Some v ->
  Py.truthy v = true ->
  format_conversation (JObj c1) = format_conversation (JObj c2).
Proof.
  intros Hsame Hempty Ht Hm Hv.
  assert (Hh : conversation_header c1 = conversation_header c2).
  { apply conversation_header_ext. intros k Hk. apply Hsame;
      intros ->; simpl in Hk; intuition discriminate. }
  assert (R1 : resolve_messages c1 = v).
  { unfold resolve_messages. rewrite Hempty. simpl. now apply lookup_get. }
  assert (R2 : resolve_messages c2 = v).
  { unfold resolve_messages. rewrite (lookup_get "messages" _ v c2 Hm), Hv.
    reflexivity. }
  unfold format_conversation, conversation_lines. now rewrite R1, R2, Hh.
Qed.

Lemma transcript_stands_in_witness :
  format_conversation (JObj [("messages", JArr []); ("transcript", one_message)])
  = format_conversation (JObj [("messages", one_message)]).
Proof.
  refine (transcript_stands_in
            [("messages", JArr []); ("transcript", one_message)]
            [("messages", one_message)] one_message _ eq_refl eq_refl eq_refl eq_refl).
  intros k H1 H2. cbn [Py.lookup].
  destruct (String.eqb_spec "messages" k); [ now elim H1 | ].
  destruct (String.eqb_spec "transcript" k); [ now elim H2 | reflexivity ].
Defined.
